(** * Post-processing of YOLACT network outputs (utils/post_process.py)

    A shallow embedding of the anchor generator, the ONNX result
    preparation, the mask compositor of the RKNN renderer and the colour
    table generator, followed by the properties proved about them.

    Numbers.  The anchor arithmetic is Python [float] arithmetic, that is
    IEEE binary64, and is written with Rocq's primitive floats, which are
    the same numbers with the same rounding.  The rows that the secondary
    decode graph returns (normalised coordinates, a score, a class index)
    and the mask values are finite numbers that the code only compares,
    truncates or multiplies by an integer dimension; they are modelled as
    rationals.  Stored bytes ([uint8]) are integers reduced modulo 256. *)

From Stdlib Require Import String ZArith QArith Qround List Lia Bool Floats.
Import ListNotations.

Close Scope Q_scope.
Set Implicit Arguments.

(** ** The fragment of the Python runtime the module relies on *)

Module Py.

(** The exceptions the modelled code can raise. *)
Inductive exn : Set :=
| ZeroDivisionError
| ValueError
| IndexError.

Inductive result (A : Type) : Type :=
| Ok (a : A)
| Raise (e : exn).

Arguments Ok {A} a.
Arguments Raise {A} e.

Definition bind {A B : Type} (m : result A) (k : A -> result B) : result B :=
  match m with
  | Ok a => k a
  | Raise e => Raise e
  end.

(** [range(n)] for a size [n]. *)
Definition range (n : nat) : list nat := seq 0 n.

(** [itertools.product(xs, ys)]: the rightmost element advances fastest. *)
Definition product {A B : Type} (xs : list A) (ys : list B) : list (A * B) :=
  flat_map (fun x => map (pair x) ys) xs.

(** [enumerate(xs)]. *)
Definition enumerate {A : Type} (xs : list A) : list (nat * A) :=
  combine (seq 0 (length xs)) xs.

(** [zip(xs, ys)] stops with the shorter sequence. *)
Definition zip {A B : Type} (xs : list A) (ys : list B) : list (A * B) :=
  combine xs ys.

(** A [for] loop whose body updates the loop state [S] and may raise. *)
Fixpoint for_ {A S : Type} (xs : list A) (body : A -> S -> result S) (s : S)
  : result S :=
  match xs with
  | [] => Ok s
  | x :: xs' => bind (body x s) (for_ xs' body)
  end.

(** [xs[i]] on a list, for an index that is not negative. *)
Definition getitem {A : Type} (xs : list A) (i : nat) : result A :=
  match nth_error xs i with
  | Some a => Ok a
  | None => Raise IndexError
  end.

(** Conversion of an [int] to a [float], rounding to nearest even. *)
Definition float_of_Z (z : Z) : float :=
  SF2Prim (binary_normalize prec emax z 0%Z false).

Definition float_of_nat (n : nat) : float := float_of_Z (Z.of_nat n).

(** [a / b] on floats: Python raises instead of returning an infinity. *)
Definition truediv (a b : float) : result float :=
  if PrimFloat.eqb b 0%float then Raise ZeroDivisionError
  else Ok (PrimFloat.div a b).

(** [a / n] for a float [a] and a size [n].  The divisor is converted to a
    float first; the converted value is zero exactly when [n] is. *)
Definition truediv_size (a : float) (n : nat) : result float :=
  match n with
  | O => Raise ZeroDivisionError
  | S _ => Ok (PrimFloat.div a (float_of_nat n))
  end.

(** [math.sqrt]: a negative argument is a domain error; [-0.0] and NaN
    pass through. *)
Definition sqrt (a : float) : result float :=
  if PrimFloat.ltb a 0%float then Raise ValueError
  else Ok (PrimFloat.sqrt a).

(** [math.ceil(a / b)] for two sizes whose quotient is exact in binary64. *)
Definition ceil_div (a b : nat) : nat := (a + b - 1) / b.

End Py.

Import Py.

Notation "x <- m ;; k" := (Py.bind m (fun x => k))
  (at level 61, m at next level, right associativity).

(** ** Configuration *)

(** The entries of [cfg] that this module reads.  An integer entry is held
    as the float it is converted to when it meets a float operand; an
    integer beyond the binary64 range, on which that conversion raises
    [OverflowError], is not a configuration in this sense. *)
Record Config : Type := {
  aspect_ratios : list float;
  scales : list float;
  img_size : float
}.

(** ** Anchor generation *)

(** [make_anchors(cfg, conv_h, conv_w, scale)] *)
Definition make_anchors (cfg : Config) (conv_h conv_w : nat) (scale : float)
  : result (list float) :=
  for_ (product (range conv_h) (range conv_w))
    (fun '(j, i) prior_data =>
       x <- truediv_size (PrimFloat.add (float_of_nat i) 0.5%float) conv_w ;;
       y <- truediv_size (PrimFloat.add (float_of_nat j) 0.5%float) conv_h ;;
       for_ (aspect_ratios cfg)
         (fun ar prior_data =>
            ar <- Py.sqrt ar ;;
            w <- truediv (PrimFloat.mul scale ar) (img_size cfg) ;;
            h0 <- truediv scale ar ;;
            h <- truediv h0 (img_size cfg) ;;
            Ok (prior_data ++ [x; y; w; h]))
         prior_data)
    [].

(** The state of an [RKNNDetection] object that the constructor computes. *)
Record RKNNDetection : Type := {
  rknn_input_size : nat;
  rknn_anchors : list float
}.

Definition strides : list nat := [8; 16; 32; 64; 128].

(** [RKNNDetection.__init__] *)
Definition RKNNDetection_init (cfg : Config) : result RKNNDetection :=
  let input_size := 544 in
  let fpn_fm_shape := map (fun stride => ceil_div input_size stride) strides in
  anchors <- for_ (enumerate fpn_fm_shape)
               (fun '(i, size) anchors =>
                  scale <- getitem (scales cfg) i ;;
                  more <- make_anchors cfg size size scale ;;
                  Ok (anchors ++ more))
               [] ;;
  Ok {| rknn_input_size := input_size; rknn_anchors := anchors |}.

(** One prior box, as four consecutive entries of the flat anchor list. *)
Record Anchor : Type := {
  anchor_cx : float;
  anchor_cy : float;
  anchor_w : float;
  anchor_h : float
}.

Definition flatten_anchors (boxes : list Anchor) : list float :=
  flat_map (fun b => [anchor_cx b; anchor_cy b; anchor_w b; anchor_h b]) boxes.

(** The anchor that [make_anchors] emits for cell [(j, i)] and ratio [ar]
    when nothing raises. *)
Definition anchor_at (cfg : Config) (conv_h conv_w : nat) (scale : float)
  (j i : nat) (ar : float) : Anchor :=
  {| anchor_cx := PrimFloat.div (PrimFloat.add (float_of_nat i) 0.5%float)
                    (float_of_nat conv_w);
     anchor_cy := PrimFloat.div (PrimFloat.add (float_of_nat j) 0.5%float)
                    (float_of_nat conv_h);
     anchor_w := PrimFloat.div (PrimFloat.mul scale (PrimFloat.sqrt ar))
                   (img_size cfg);
     anchor_h := PrimFloat.div (PrimFloat.div scale (PrimFloat.sqrt ar))
                   (img_size cfg) |}.

(** The anchors of one pyramid level in the order rows, columns, aspect
    ratios. *)
Definition grid_anchors (cfg : Config) (conv_h conv_w : nat) (scale : float)
  : list Anchor :=
  flat_map
    (fun ji => map (anchor_at cfg conv_h conv_w scale (fst ji) (snd ji))
                   (aspect_ratios cfg))
    (product (range conv_h) (range conv_w)).

(** The aspect ratios and image size for which no operation of
    [make_anchors] raises. *)
Definition ratio_ok (ar : float) : bool :=
  negb (PrimFloat.ltb ar 0%float)
  && negb (PrimFloat.eqb (PrimFloat.sqrt ar) 0%float).

Definition config_ok (cfg : Config) : bool :=
  negb (PrimFloat.eqb (img_size cfg) 0%float)
  && forallb ratio_ok (aspect_ratios cfg).

(** The configuration of the published 544-pixel model. *)
Definition cfg544 : Config :=
  {| aspect_ratios := [1%float; 0.5%float; 2%float];
     scales := [23%float; 47%float; 94%float; 189%float; 379%float];
     img_size := 544%float |}.

(** ** Result preparation of the ONNX variant *)

(** One row [x1, y1, x2, y2, score, class_id] of [results[0][0]]: six
    finite numbers. *)
Record Row : Type := {
  row_x1 : Q;
  row_y1 : Q;
  row_x2 : Q;
  row_y2 : Q;
  row_score : Q;
  row_class : Q
}.

(** [result[:4].tolist()] *)
Record BBox : Type := {
  bbox_x1 : Q;
  bbox_y1 : Q;
  bbox_x2 : Q;
  bbox_y2 : Q
}.

(** A predicted mask: rows of values.  A tagged mask: rows of bytes. *)
Definition Mask : Type := list (list Q).
Definition ByteMask : Type := list (list Z).

(** [slice(start, stop)] with bounds that are not negative. *)
Record slice : Type := {
  start : Z;
  stop : Z
}.

(** Storing an integer in a [uint8] cell keeps it modulo 256. *)
Definition uint8 (z : Z) : Z := (z mod 256)%Z.

(** [int(x)]: truncation toward zero. *)
Definition py_int (q : Q) : Z := Z.quot (Qnum q) (Zpos (Qden q)).

(** [max(a, b)]: the second argument wins only when it is greater. *)
Definition py_max (a b : Q) : Q := if Qlt_le_dec a b then b else a.

(** [m.shape] of a two-dimensional array. *)
Definition shape {A : Type} (m : list (list A)) : nat * nat :=
  (length m, length (hd [] m)).

Definition Q_of_nat (n : nat) : Q := inject_Z (Z.of_nat n).

(** The inner function [crop(bbox, shape)] of [prep_display].  The products
    are exact, as they are in binary64 for a coordinate with at most 24
    significant bits (a float32 value) and a dimension below 2^29. *)
Definition crop (bbox : BBox) (shp : nat * nat) : slice * slice :=
  let x1 := py_int (py_max (bbox_x1 bbox * Q_of_nat (snd shp)) 0) in
  let y1 := py_int (py_max (bbox_y1 bbox * Q_of_nat (fst shp)) 0) in
  let x2 := py_int (py_max (bbox_x2 bbox * Q_of_nat (snd shp)) 0) in
  let y2 := py_int (py_max (bbox_y2 bbox * Q_of_nat (fst shp)) 0) in
  ({| start := y1; stop := y2 |}, {| start := x1; stop := x2 |}).

(** Whether position [i] of an axis is selected by a slice. *)
Definition in_slice (s : slice) (i : nat) : bool :=
  (start s <=? Z.of_nat i)%Z && (Z.of_nat i <? stop s)%Z.

(** [np.where(mask > 0.5, class_id + 1, 0).astype(np.uint8)] *)
Definition where_tag (class_id : Z) (mask : Mask) : ByteMask :=
  map (map (fun v => uint8 (if Qlt_le_dec (1 # 2) v then class_id + 1 else 0)%Z))
      mask.

Definition mapi {A B : Type} (f : nat -> A -> B) (xs : list A) : list B :=
  map (fun p => f (fst p) (snd p)) (enumerate xs).

(** [cropped = np.zeros(mask.shape); cropped[region] = mask[region]] *)
Definition assign_region (region : slice * slice) (mask : ByteMask) : ByteMask :=
  mapi (fun r row =>
          mapi (fun c v =>
                  if in_slice (fst region) r && in_slice (snd region) c
                  then v else 0%Z)
               row)
       mask.

(** The state of an [ONNXDetection] object read by [prep_display]. *)
Record ONNXDetection : Type := {
  onnx_input_size : nat;
  threshold : Q
}.

(** [ONNXDetection.__init__]; the threshold is the binary64 value of the
    literal [0.1]. *)
Definition ONNXDetection_init : ONNXDetection :=
  {| onnx_input_size := 550;
     threshold := 3602879701896397 # 36028797018963968 |}.

(** The four sequences returned by [prep_display]. *)
Definition Display : Type :=
  (list BBox * list Q * list Z * list ByteMask)%type.

(** [ONNXDetection.prep_display]; [rows] is [results[0][0]] and [masks] is
    [results[1]]. *)
Definition prep_display (self : ONNXDetection) (rows : list Row)
  (masks : list Mask) : Display :=
  fold_left
    (fun (acc : Display) (rm : Row * Mask) =>
       let '(bboxes, scores, class_ids, out_masks) := acc in
       let '(result, mask) := rm in
       let bbox := {| bbox_x1 := row_x1 result; bbox_y1 := row_y1 result;
                      bbox_x2 := row_x2 result; bbox_y2 := row_y2 result |} in
       let score := row_score result in
       let class_id := py_int (row_class result) in
       if Qlt_le_dec score (threshold self) then acc
       else
         let mask := where_tag class_id mask in
         let region := crop bbox (shape mask) in
         let cropped := assign_region region mask in
         (bboxes ++ [bbox], scores ++ [score], class_ids ++ [class_id],
          out_masks ++ [cropped]))
    (zip rows masks)
    ([], [], [], []).

(** The detections of a [Display], one tuple per kept instance. *)
Definition detections (d : Display) : list (BBox * Q * Z * ByteMask) :=
  let '(bboxes, scores, class_ids, out_masks) := d in
  combine (combine (combine bboxes scores) class_ids) out_masks.

(** An element of a two-dimensional array, [d] outside it. *)
Definition pixel {A : Type} (d : A) (m : list (list A)) (r c : nat) : A :=
  nth c (nth r m []) d.

(** ** Rendering of the RKNN variant *)

Definition Color : Type := list Z.

(** The palette [COLORS]. *)
Definition COLORS : list Color :=
  [[0; 0; 0]; [244; 67; 54]; [233; 30; 99]; [156; 39; 176];
   [103; 58; 183]; [100; 30; 60]; [63; 81; 181]; [33; 150; 243];
   [3; 169; 244]; [0; 188; 212]; [20; 55; 200]; [0; 150; 136];
   [76; 175; 80]; [139; 195; 74]; [205; 220; 57]; [70; 25; 100];
   [255; 235; 59]; [255; 193; 7]; [255; 152; 0]; [255; 87; 34];
   [90; 155; 50]; [121; 85; 72]; [158; 158; 158]; [96; 125; 139];
   [15; 67; 34]; [98; 55; 20]; [21; 82; 172]; [58; 128; 255];
   [196; 125; 39]; [75; 27; 134]; [90; 125; 120]; [121; 82; 7];
   [158; 58; 8]; [96; 25; 9]; [115; 7; 234]; [8; 155; 220];
   [221; 25; 72]; [188; 58; 158]; [56; 175; 19]; [215; 67; 64];
   [198; 75; 20]; [62; 185; 22]; [108; 70; 58]; [160; 225; 39];
   [95; 60; 144]; [78; 155; 120]; [101; 25; 142]; [48; 198; 28];
   [96; 225; 200]; [150; 167; 134]; [18; 185; 90]; [21; 145; 172];
   [98; 68; 78]; [196; 105; 19]; [215; 67; 84]; [130; 115; 170];
   [255; 0; 255]; [255; 255; 0]; [196; 185; 10]; [95; 167; 234];
   [18; 25; 190]; [0; 255; 255]; [255; 0; 0]; [0; 255; 0];
   [0; 0; 255]; [155; 0; 0]; [0; 155; 0]; [0; 0; 155];
   [46; 22; 130]; [255; 0; 155]; [155; 0; 255]; [255; 155; 0];
   [155; 255; 0]; [0; 155; 255]; [0; 255; 155]; [18; 5; 40];
   [120; 120; 255]; [255; 58; 30]; [60; 45; 60]; [75; 27; 244];
   [128; 25; 70]]%Z.

(** The label table [COCO_CLASSES]. *)
Definition COCO_CLASSES : list string :=
  [   "person"; "bicycle"; "car"; "motorcycle";
   "airplane"; "bus"; "train"; "truck";
   "boat"; "traffic light"; "fire hydrant"; "stop sign";
   "parking meter"; "bench"; "bird"; "cat";
   "dog"; "horse"; "sheep"; "cow";
   "elephant"; "bear"; "zebra"; "giraffe";
   "backpack"; "umbrella"; "handbag"; "tie";
   "suitcase"; "frisbee"; "skis"; "snowboard";
   "sports ball"; "kite"; "baseball bat"; "baseball glove";
   "skateboard"; "surfboard"; "tennis racket"; "bottle";
   "wine glass"; "cup"; "fork"; "knife";
   "spoon"; "bowl"; "banana"; "apple";
   "sandwich"; "orange"; "broccoli"; "carrot";
   "hot dog"; "pizza"; "donut"; "cake";
   "chair"; "couch"; "potted plant"; "bed";
   "dining table"; "toilet"; "tv"; "laptop";
   "mouse"; "remote"; "keyboard"; "cell phone";
   "microwave"; "oven"; "toaster"; "sink";
   "refrigerator"; "book"; "clock"; "vase";
   "scissors"; "teddy bear"; "hair drier"; "toothbrush"]%string.

(** [xs[i]] for an integer index: a negative index counts from the end. *)
Definition getitem_Z {A : Type} (xs : list A) (i : Z) : result A :=
  let n := Z.of_nat (length xs) in
  if ((0 <=? i) && (i <? n))%Z then getitem xs (Z.to_nat i)
  else if ((- n <=? i) && (i <? 0))%Z then getitem xs (Z.to_nat (n + i))
  else Raise IndexError.

(** The array [mask_p] of shape [(N, H, W)]. *)
Record Masks : Type := {
  masks_h : nat;
  masks_w : nat;
  planes : list Mask
}.

(** [m * t] for one plane and one scalar. *)
Definition scale_plane (t : Z) (m : Mask) : Mask :=
  map (map (fun v => (v * inject_Z t)%Q)) m.

(** [mask_p * (ids_p[:, None, None] + 1)]: the leading axes must agree, or
    one of them has length one and is repeated. *)
Definition broadcast_mul (ms : list Mask) (ids_p : list Z)
  : result (list Mask) :=
  let tags := map (fun i => (i + 1)%Z) ids_p in
  if length ms =? length tags
  then Ok (map (fun mt => scale_plane (snd mt) (fst mt)) (combine ms tags))
  else match tags, ms with
       | [t], _ => Ok (map (scale_plane t) ms)
       | _, [m] => Ok (map (fun t => scale_plane t m) tags)
       | _, _ => Raise ValueError
       end.

(** [a.astype('int').sum(axis=0)] on an array of shape [(N, h, w)]. *)
Definition sum_axis0 (h w : nat) (ms : list Mask) : list (list Z) :=
  map (fun r =>
         map (fun c =>
                fold_left Z.add (map (fun m => py_int (pixel 0%Q m r c)) ms) 0%Z)
             (range w))
      (range h).

(** The palette index of every pixel, as [rknn_draw] computes it. *)
Definition masks_semantic (mask_p : Masks) (ids_p : list Z)
  : result (list (list Z)) :=
  stacked <- broadcast_mul (planes mask_p) ids_p ;;
  Ok (map (map (fun v => (v mod (Z.of_nat (length COCO_CLASSES) - 1))%Z))
          (sum_axis0 (masks_h mask_p) (masks_w mask_p) stacked)).

Section Visualizer.

(** Frames and the drawing primitives of OpenCV are external. *)
Variable Image : Type.
Variable addWeighted : list (list Color) -> Q -> Image -> Q -> Image.
Variable rectangle : Image -> Z * Z -> Z * Z -> Color -> Z -> Image.
Variable getTextSize : string -> Q -> Z -> Z * Z.
Variable putText : Image -> string -> Z * Z -> Q -> Color -> Z -> Image.
(** [f'{class_name}: {score:.2f}'] *)
Variable format_label : string -> Q -> string.

(** [Visualizer.rknn_draw]; [ids_p] is [None] when nothing was detected. *)
Definition rknn_draw (img_origin : Image) (ids_p : option (list Z))
  (class_p : list Q) (box_p : list (Z * Z * Z * Z)) (mask_p : Masks)
  : result Image :=
  match ids_p with
  | None => Ok img_origin
  | Some ids_p =>
      let num_detected := length ids_p in
      idx <- masks_semantic mask_p ids_p ;;
      color_masks <-
        for_ idx
          (fun row acc =>
             colors <- for_ row
                         (fun i acc => c <- getitem_Z COLORS i ;;
                                       Ok (acc ++ [map uint8 c]))
                         [] ;;
             Ok (acc ++ [colors]))
          [] ;;
      let img_fused := addWeighted color_masks (4 # 10) img_origin (6 # 10) in
      let scale := (6 # 10)%Q in
      let thickness := 1%Z in
      for_ (rev (range num_detected))
        (fun i img_fused =>
           box <- getitem box_p i ;;
           let '(x1, y1, x2, y2) := box in
           id <- getitem ids_p i ;;
           color <- getitem_Z COLORS (id + 1) ;;
           let img_fused := rectangle img_fused (x1, y1) (x2, y2) color thickness in
           class_name <- getitem_Z COCO_CLASSES id ;;
           score <- getitem class_p i ;;
           let text_str := format_label class_name score in
           let '(text_w, text_h) := getTextSize text_str scale thickness in
           let img_fused :=
             rectangle img_fused (x1, y1) (x1 + text_w, y1 + text_h + 5)%Z
                       color (-1)%Z in
           Ok (putText img_fused text_str (x1, y1 + 15)%Z scale
                       [255; 255; 255]%Z thickness))
        img_fused
  end.

End Visualizer.

(** ** The random colour table *)

Section Colors.

(** NumPy's global generator is external: its state, the state that
    [np.random.seed(s)] installs, and a draw of [size] integers from
    [[low, high)] together with the state it leaves. *)
Variable rng : Type.
Variable np_random_seed : Z -> rng.
Variable np_random_randint : Z -> Z -> nat -> rng -> list Z * rng.

(** [get_colors(num)], started in generator state [st]; returns the list
    and the state the generator is left in. *)
Definition get_colors (num : nat) (st : rng) : list Color * rng :=
  let colors := [[0; 0; 0]%Z] in
  let st := np_random_seed 0 in
  fold_left
    (fun (acc : list Color * rng) (_ : nat) =>
       let '(colors, st) := acc in
       let '(color, st) := np_random_randint 0%Z 256%Z 3 st in
       (colors ++ [map uint8 color], st))
    (range num)
    (colors, st).

End Colors.

(** ** Reference forms used to state the properties *)

(** [a < b] on rationals, as a boolean. *)
Definition Qltb (a b : Q) : bool := if Qlt_le_dec a b then true else false.

(** The tagged and cropped mask that [prep_display] builds for one kept
    instance. *)
Definition cropped_mask (class_id : Z) (bbox : BBox) (mask : Mask) : ByteMask :=
  let tagged := where_tag class_id mask in
  assign_region (crop bbox (shape tagged)) tagged.

Definition row_bbox (result : Row) : BBox :=
  {| bbox_x1 := row_x1 result; bbox_y1 := row_y1 result;
     bbox_x2 := row_x2 result; bbox_y2 := row_y2 result |}.

(** What [prep_display] appends for a candidate that passes the threshold. *)
Definition prepared (rm : Row * Mask) : BBox * Q * Z * ByteMask :=
  let class_id := py_int (row_class (fst rm)) in
  (row_bbox (fst rm), row_score (fst rm), class_id,
   cropped_mask class_id (row_bbox (fst rm)) (snd rm)).

(** The candidates that are not below the threshold, in input order. *)
Definition survivors (self : ONNXDetection) (rows : list Row)
  (masks : list Mask) : list (Row * Mask) :=
  filter (fun rm => negb (Qltb (row_score (fst rm)) (threshold self)))
         (zip rows masks).

(** The four parallel sequences of a list of detections. *)
Definition display_of (ds : list (BBox * Q * Z * ByteMask)) : Display :=
  (map (fun d => fst (fst (fst d))) ds,
   map (fun d => snd (fst (fst d))) ds,
   map (fun d => snd (fst d)) ds,
   map (fun d => snd d) ds).

(** The sum of a list of integers. *)
Definition Zsum (l : list Z) : Z := fold_right Z.add 0%Z l.

(** ** Sample inputs *)

(** A confident detection of class 2 in the upper middle of the frame. *)
Definition row_a : Row :=
  {| row_x1 := 1 # 4; row_y1 := 0; row_x2 := 3 # 4; row_y2 := 1 # 2;
     row_score := 9 # 10; row_class := 2 |}%Q.

(** A detection whose score 0.05 is below the default threshold. *)
Definition row_b : Row :=
  {| row_x1 := 0; row_y1 := 0; row_x2 := 1; row_y2 := 1;
     row_score := 5 # 100; row_class := 7 |}%Q.

Definition mask_a : Mask :=
  [[9 # 10; 9 # 10; 9 # 10; 9 # 10]; [9 # 10; 1 # 10; 9 # 10; 9 # 10];
   [1; 1; 1; 1]; [1; 1; 1; 1 # 2]]%Q.

Definition mask_c : Mask := [[9 # 10]]%Q.

(** Two binary instance masks on a 2 x 2 frame that overlap at (0, 0). *)
Definition two_masks : Masks :=
  {| masks_h := 2; masks_w := 2;
     planes := [[[1; 0]; [1; 1]]; [[1; 1]; [0; 0]]]%Q |}.

(** ** Tensor reordering of the ONNX variant *)

(** A NumPy array: its shape and the element at each index.  The element
    function is read only at indices inside the shape. *)
Record ndarray : Type := {
  nd_shape : list nat;
  nd_item : list nat -> Q
}.

(** [a[0]]: the first sub-array along the leading axis. *)
Definition nd_first (a : ndarray) : result ndarray :=
  match nd_shape a with
  | S _ :: rest =>
      Ok {| nd_shape := rest; nd_item := fun idx => nd_item a (0 :: idx) |}
  | _ => Raise IndexError
  end.

(** [np.transpose(a, (2, 0, 1))]: axis 2 comes first. *)
Definition transpose_201 (a : ndarray) : result ndarray :=
  match nd_shape a with
  | [d0; d1; d2] =>
      Ok {| nd_shape := [d2; d0; d1];
            nd_item := fun idx =>
                         match idx with
                         | [i; j; k] => nd_item a [j; k; i]
                         | _ => 0%Q
                         end |}
  | _ => Raise ValueError
  end.

(** [ONNXDetection.permute] *)
Definition ONNXDetection_permute (net_outputs : list ndarray)
  : result (list ndarray) :=
  n0 <- getitem net_outputs 0 ;;
  a0 <- nd_first n0 ;;
  n2 <- getitem net_outputs 2 ;;
  a1 <- nd_first n2 ;;
  a2 <- getitem net_outputs 3 ;;
  n1 <- getitem net_outputs 1 ;;
  a3 <- nd_first n1 ;;
  t0 <- transpose_201 a0 ;;
  t1 <- transpose_201 a1 ;;
  t3 <- transpose_201 a3 ;;
  Ok [t0; t1; a2; t3].

(** ** Rendering of the ONNX variant *)

Definition MASK_SHAPE : nat * nat * nat := (138, 138, 3).

(** [np.zeros(MASK_SHAPE, dtype=np.uint8)] *)
Definition zeros_image : list (list Color) :=
  let '(h, w, c) := MASK_SHAPE in repeat (repeat (repeat 0%Z c) w) h.

(** [np.array(colors, dtype=np.uint8)[mask]]: the colour of every tag. *)
Definition take_colors (colors : list Color) (mask : ByteMask)
  : result (list (list Color)) :=
  for_ mask
    (fun row acc =>
       cs <- for_ row
               (fun tag acc => c <- getitem_Z colors tag ;; Ok (acc ++ [c]))
               [] ;;
       Ok (acc ++ [cs]))
    [].

(** Whether every position of [np.nonzero(mask)] lies inside an image of
    [h] rows and [w] columns. *)
Definition filled_inside (h w : nat) (mask : ByteMask) : bool :=
  forallb
    (fun p => forallb
                (fun q => (snd q =? 0)%Z || ((fst p <? h) && (fst q <? w)))
                (enumerate (snd p)))
    (enumerate mask).

(** One turn of the loop over the masks:
    [color_mask = np.array(colors)[mask]; filled = np.nonzero(mask);
     mask_image[filled] = color_mask[filled]]. *)
Definition paint_mask (colors : list Color) (mask : ByteMask)
  (mask_image : list (list Color)) : result (list (list Color)) :=
  color_mask <- take_colors colors mask ;;
  if filled_inside (fst (shape mask_image)) (snd (shape mask_image)) mask
  then Ok (mapi (fun r row =>
                   mapi (fun c old =>
                           if (pixel 0%Z mask r c =? 0)%Z then old
                           else pixel [] color_mask r c)
                        row)
                mask_image)
  else Raise IndexError.

Section OnnxVisualizer.

Variable rng : Type.
Variable np_random_seed : Z -> rng.
Variable np_random_randint : Z -> Z -> nat -> rng -> list Z * rng.

(** Frames and the OpenCV calls are external; [addWeighted] stands for the
    call that writes its result into the frame. *)
Variable Image : Type.
Variable frame_shape : Image -> nat * nat.
Variable resize : list (list Color) -> nat * nat -> Image.
Variable addWeighted : Image -> Q -> Image -> Q -> Q -> Image.
Variable rectangle : Image -> Z * Z -> Z * Z -> Color -> Z -> Image.
Variable putText : Image -> string -> Z * Z -> Z -> Q -> Color -> Z -> Image.
(** ['%s:%.2f' % (name, score)] *)
Variable format_label : string -> Q -> string.

(** [Visualizer.onnx_draw], started in generator state [st]; returns the
    frame or the exception, and the state the generator is left in. *)
Definition onnx_draw (frame : Image) (bboxes : list BBox) (scores : list Q)
  (class_ids : list Z) (masks : list ByteMask) (st : rng)
  : result Image * rng :=
  let '(colors, st) :=
    get_colors np_random_seed np_random_randint (length COCO_CLASSES) st in
  let '(frame_height, frame_width) := frame_shape frame in
  (frame <-
     (if 0 <? length masks
      then
        mask_image <- for_ masks (paint_mask colors) zeros_image ;;
        let mask_image := resize mask_image (frame_width, frame_height) in
        Ok (addWeighted frame (1 # 2) mask_image (1 # 2) 0)
      else Ok frame) ;;
   for_ (zip (zip (zip bboxes scores) class_ids) masks)
     (fun '(bbox, score, class_id, mask) frame =>
        let x1 := py_int (bbox_x1 bbox * Q_of_nat frame_width) in
        let y1 := py_int (bbox_y1 bbox * Q_of_nat frame_height) in
        let x2 := py_int (bbox_x2 bbox * Q_of_nat frame_width) in
        let y2 := py_int (bbox_y2 bbox * Q_of_nat frame_height) in
        let frame := rectangle frame (x1, y1) (x2, y2) [255; 255; 0]%Z 2%Z in
        class_name <- getitem_Z COCO_CLASSES class_id ;;
        Ok (putText frame (format_label class_name score) (x1, y1 - 5)%Z
                    0%Z (7 # 10) [0; 255; 0]%Z 2%Z))
     frame,
   st).

End OnnxVisualizer.

(** An all-black overlay of [h] rows and [w] columns. *)
Definition black_image (h w : nat) : list (list Color) :=
  repeat (repeat [0; 0; 0]%Z w) h.

(** ** Further reference forms and sample inputs *)

(** [dst] is [np.transpose(src[0], (2, 0, 1))]: the first element of the
    batch with its channel axis moved to the front. *)
Definition channels_first (src dst : ndarray) : Prop :=
  exists b d0 d1 d2,
    nd_shape src = [S b; d0; d1; d2] /\
    nd_shape dst = [d2; d0; d1] /\
    forall i j k, nd_item dst [i; j; k] = nd_item src [0; j; k; i].

(** A network output of shape (1, 2, 2, 3) whose element [[0, j, k, i]] is
    [100 j + 10 k + i]. *)
Definition sample_output : ndarray :=
  {| nd_shape := [1; 2; 2; 3];
     nd_item := fun idx =>
                  match idx with
                  | [_; j; k; i] =>
                      inject_Z (Z.of_nat (100 * j + 10 * k + i))
                  | _ => 0%Q
                  end |}.

(** A box narrower than one pixel of a 4 x 4 mask. *)
Definition row_thin : Row :=
  {| row_x1 := 3 # 10; row_y1 := 0; row_x2 := 4 # 10; row_y2 := 1;
     row_score := 9 # 10; row_class := 2 |}%Q.

(** * Properties *)

(** ** Loops that append to a list *)

Section AppendingLoops.

Context {A B : Type}.
Variable body : A -> list B -> result (list B).
Variable emit : A -> list B.

(** A loop whose every successful step appends [emit x] returns, when it
    returns, the initial list followed by all that was emitted. *)
Lemma for_appends (xs : list A) :
  (forall x s r, In x xs -> body x s = Ok r -> r = s ++ emit x) ->
  forall s r, for_ xs body s = Ok r -> r = s ++ flat_map emit xs.
Proof.
  induction xs as [|x xs IH]; intros Hstep s r Hrun; simpl in *.
  - injection Hrun as <-. now rewrite app_nil_r.
  - destruct (body x s) as [s'|e] eqn:Hx; simpl in Hrun; [|discriminate].
    apply Hstep in Hx; [|now left]. subst s'.
    rewrite app_assoc. apply IH; [|exact Hrun].
    intros y t u Hy. apply Hstep. now right.
Qed.

(** A loop none of whose steps raises does not raise. *)
Lemma for_returns (xs : list A) :
  (forall x s, In x xs -> exists r, body x s = Ok r) ->
  forall s, exists r, for_ xs body s = Ok r.
Proof.
  induction xs as [|x xs IH]; intros Hstep s; simpl.
  - now exists s.
  - destruct (Hstep x s (or_introl eq_refl)) as [s' ->]. simpl.
    apply IH. intros y t Hy. apply Hstep. now right.
Qed.

End AppendingLoops.

(** A loop with a step that raises from every state raises. *)
Lemma for_raises {A S : Type} (body : A -> S -> result S) (xs : list A) (x : A) :
  In x xs ->
  (forall s, exists e, body x s = Raise e) ->
  forall s, exists e, for_ xs body s = Raise e.
Proof.
  induction xs as [|y xs IH]; intros Hin Hx s; simpl; [contradiction|].
  destruct (body y s) as [s'|e] eqn:Hy; simpl.
  - destruct Hin as [->|Hin]; [|now apply IH].
    destruct (Hx s) as [e He]. congruence.
  - now exists e.
Qed.

(** ** Positions in a concatenation of blocks of one size *)

Section Blocks.

Context {A B : Type}.
Variable f : A -> list B.
Variable n : nat.

Lemma flat_map_block_length (xs : list A) :
  (forall x, In x xs -> length (f x) = n) ->
  length (flat_map f xs) = length xs * n.
Proof.
  induction xs as [|x xs IH]; intros Hn; simpl; [reflexivity|].
  rewrite length_app, Hn, IH by auto using in_eq, in_cons.
  reflexivity.
Qed.

Lemma nth_flat_map_block (xs : list A) (dx : A) (d : B) :
  (forall x, In x xs -> length (f x) = n) ->
  forall b r, b < length xs -> r < n ->
    nth (b * n + r) (flat_map f xs) d = nth r (f (nth b xs dx)) d.
Proof.
  induction xs as [|x xs IH]; intros Hn b r Hb Hr; simpl in *; [lia|].
  destruct b as [|b]; simpl.
  - rewrite app_nth1; [reflexivity|]. rewrite Hn; auto.
  - rewrite app_nth2; rewrite Hn; auto; try lia.
    replace (n + b * n + r - n) with (b * n + r) by lia.
    apply IH; auto; lia.
Qed.

End Blocks.

Lemma product_length {A B : Type} (xs : list A) (ys : list B) :
  length (product xs ys) = length xs * length ys.
Proof.
  unfold product. apply (@flat_map_block_length _ _ (fun x => map (pair x) ys)).
  intros; now rewrite length_map.
Qed.

Lemma nth_product_range (h w j i : nat) :
  j < h -> i < w ->
  nth (j * w + i) (product (range h) (range w)) (0, 0) = (j, i).
Proof.
  intros Hj Hi. unfold product, range.
  rewrite (@nth_flat_map_block _ _ (fun x => map (pair x) (seq 0 w)) w _ 0).
  - rewrite seq_nth by lia. simpl.
    rewrite (nth_indep _ (0, 0) (j, 0)) by (rewrite length_map, length_seq; lia).
    rewrite map_nth, seq_nth by lia. reflexivity.
  - intros; now rewrite length_map, length_seq.
  - now rewrite length_seq.
  - exact Hi.
Qed.

Lemma in_product_range (h w j i : nat) :
  In (j, i) (product (range h) (range w)) -> j < h /\ i < w.
Proof.
  unfold product, range. rewrite in_flat_map.
  intros [x [Hx Hin]]. apply in_map_iff in Hin as [y [Heq Hy]].
  injection Heq as <- <-. apply in_seq in Hx, Hy. lia.
Qed.

(** ** Anchor generation *)

(** In a hypothesis [H : (x <- m ;; k) = Ok r], name the value [x] that
    [m] returned and keep the equation [Hx : m = Ok x]. *)
Ltac bind_returns H x Hx :=
  match type of H with
  | Py.bind ?m _ = Ok _ =>
      destruct m as [x|] eqn:Hx; cbn [Py.bind] in H; [|discriminate H]
  end.

Lemma flatten_anchors_app (xs ys : list Anchor) :
  flatten_anchors (xs ++ ys) = flatten_anchors xs ++ flatten_anchors ys.
Proof. unfold flatten_anchors. apply flat_map_app. Qed.

Lemma flatten_anchors_flat_map {A : Type} (g : A -> list Anchor) (xs : list A) :
  flatten_anchors (flat_map g xs) = flat_map (fun x => flatten_anchors (g x)) xs.
Proof.
  induction xs as [|x xs IH]; simpl; [reflexivity|].
  now rewrite flatten_anchors_app, IH.
Qed.

Lemma flatten_anchors_length (boxes : list Anchor) :
  length (flatten_anchors boxes) = 4 * length boxes.
Proof.
  unfold flatten_anchors.
  rewrite (@flat_map_block_length _ _ _ 4) by reflexivity. lia.
Qed.

Lemma truediv_ok (a b : float) :
  PrimFloat.eqb b 0%float = false -> truediv a b = Ok (PrimFloat.div a b).
Proof. unfold truediv. now intros ->. Qed.

Lemma truediv_inv (a b r : float) :
  truediv a b = Ok r -> r = PrimFloat.div a b.
Proof. unfold truediv. destruct (PrimFloat.eqb b 0); congruence. Qed.

Lemma truediv_size_inv (a r : float) (n : nat) :
  truediv_size a n = Ok r -> r = PrimFloat.div a (float_of_nat n).
Proof. destruct n; simpl; congruence. Qed.

Lemma sqrt_inv (a r : float) : Py.sqrt a = Ok r -> r = PrimFloat.sqrt a.
Proof. unfold Py.sqrt. destruct (PrimFloat.ltb a 0); congruence. Qed.

(** When [make_anchors] returns, it returns the level's anchors in grid
    order, four numbers each. *)
Lemma make_anchors_grid (cfg : Config) (conv_h conv_w : nat) (scale : float)
  (l : list float) :
  make_anchors cfg conv_h conv_w scale = Ok l ->
  l = flatten_anchors (grid_anchors cfg conv_h conv_w scale).
Proof.
  unfold make_anchors, grid_anchors. intros Hrun.
  rewrite flatten_anchors_flat_map.
  apply for_appends with (emit := fun ji =>
    flatten_anchors (map (anchor_at cfg conv_h conv_w scale (fst ji) (snd ji))
                         (aspect_ratios cfg))) in Hrun; [exact Hrun|].
  intros [j i] s r _ Hcell. simpl fst; simpl snd.
  bind_returns Hcell x Hx. bind_returns Hcell y Hy.
  apply truediv_size_inv in Hx, Hy. subst x y.
  unfold flatten_anchors. rewrite flat_map_concat_map, map_map, <- flat_map_concat_map.
  apply for_appends with (emit := fun ar =>
    let b := anchor_at cfg conv_h conv_w scale j i ar in
    [anchor_cx b; anchor_cy b; anchor_w b; anchor_h b]) in Hcell; [exact Hcell|].
  intros ar t u _ Har.
  bind_returns Har sq Hsq. bind_returns Har w Hw.
  bind_returns Har h0 Hh0. bind_returns Har h Hh.
  apply sqrt_inv in Hsq. apply truediv_inv in Hw, Hh0, Hh. subst.
  injection Har as <-. reflexivity.
Qed.

(** [make_anchors] returns for every grid when the configuration avoids
    the operands on which a division or a square root raises. *)
Lemma make_anchors_returns (cfg : Config) (conv_h conv_w : nat) (scale : float) :
  config_ok cfg = true ->
  exists l, make_anchors cfg conv_h conv_w scale = Ok l.
Proof.
  unfold config_ok. intros Hok. apply andb_prop in Hok as [Himg Hars].
  apply negb_true_iff in Himg. rewrite forallb_forall in Hars.
  unfold make_anchors. apply for_returns.
  intros [j i] s Hin. apply in_product_range in Hin as [Hj Hi].
  destruct conv_w as [|w']; [lia|]. destruct conv_h as [|h']; [lia|].
  cbn [truediv_size bind].
  apply for_returns. intros ar t Har.
  apply Hars in Har. unfold ratio_ok in Har.
  apply andb_prop in Har as [Hneg Hzero].
  apply negb_true_iff in Hneg, Hzero.
  unfold Py.sqrt. rewrite Hneg. cbn [bind].
  rewrite (truediv_ok _ Himg). cbn [bind].
  rewrite (truediv_ok _ Hzero). cbn [bind].
  rewrite (truediv_ok _ Himg). cbn [bind].
  eexists; reflexivity.
Qed.

Lemma grid_anchors_length (cfg : Config) (conv_h conv_w : nat) (scale : float) :
  length (grid_anchors cfg conv_h conv_w scale)
  = conv_h * conv_w * length (aspect_ratios cfg).
Proof.
  unfold grid_anchors.
  rewrite (@flat_map_block_length _ _ _ (length (aspect_ratios cfg)))
    by (intros; apply length_map).
  rewrite product_length. unfold range. now rewrite !length_seq.
Qed.

Lemma cell_index_bound (h w j i : nat) : j < h -> i < w -> j * w + i < h * w.
Proof.
  intros Hj Hi.
  assert (j * w + w <= h * w).
  { replace (j * w + w) with (S j * w) by lia.
    apply Nat.mul_le_mono_r. lia. }
  lia.
Qed.

Lemma grid_anchors_nth (cfg : Config) (conv_h conv_w : nat) (scale : float)
  (j i a : nat) (ar : float) :
  j < conv_h -> i < conv_w -> nth_error (aspect_ratios cfg) a = Some ar ->
  nth_error (grid_anchors cfg conv_h conv_w scale)
            ((j * conv_w + i) * length (aspect_ratios cfg) + a)
  = Some (anchor_at cfg conv_h conv_w scale j i ar).
Proof.
  intros Hj Hi Har.
  assert (Ha : a < length (aspect_ratios cfg))
    by (apply nth_error_Some; congruence).
  set (d := anchor_at cfg conv_h conv_w scale j i ar).
  rewrite (nth_error_nth' _ d)
    by (rewrite grid_anchors_length;
        apply cell_index_bound; [now apply cell_index_bound | exact Ha]).
  f_equal. unfold grid_anchors.
  rewrite (@nth_flat_map_block _ _ _ (length (aspect_ratios cfg)) _ (0, 0));
    [ | intros; apply length_map
      | rewrite product_length; unfold range; rewrite !length_seq;
        now apply cell_index_bound
      | exact Ha ].
  rewrite nth_product_range by assumption. simpl fst; simpl snd.
  rewrite (nth_indep _ d (anchor_at cfg conv_h conv_w scale j i ar))
    by (now rewrite length_map).
  rewrite map_nth. unfold d. f_equal.
  now apply nth_error_nth.
Qed.

(** The loop of [RKNNDetection.__init__] over the pyramid levels. *)
Lemma levels_loop_grid (cfg : Config) (levels : list (nat * nat))
  (s r : list float) :
  for_ levels
    (fun '(i, size) anchors =>
       scale <- getitem (scales cfg) i ;;
       more <- make_anchors cfg size size scale ;;
       Ok (anchors ++ more)) s = Ok r ->
  r = s ++ flatten_anchors
             (flat_map (fun p => grid_anchors cfg (snd p) (snd p)
                                   (nth (fst p) (scales cfg) 0%float))
                       levels).
Proof.
  intros Hrun. rewrite flatten_anchors_flat_map.
  apply for_appends with (emit := fun p =>
    flatten_anchors (grid_anchors cfg (snd p) (snd p)
                       (nth (fst p) (scales cfg) 0%float))) in Hrun;
    [exact Hrun|].
  intros [i size] t u _ Hstep. simpl fst; simpl snd.
  bind_returns Hstep scale Hscale. bind_returns Hstep more Hmore.
  injection Hstep as <-. f_equal.
  apply make_anchors_grid in Hmore. subst more.
  unfold getitem in Hscale.
  destruct (nth_error (scales cfg) i) as [scale'|] eqn:Hnth; [|discriminate].
  injection Hscale as ->.
  now rewrite (nth_error_nth _ _ 0%float Hnth).
Qed.

Lemma levels_loop_returns (cfg : Config) (levels : list (nat * nat))
  (s : list float) :
  config_ok cfg = true ->
  (forall p, In p levels -> fst p < length (scales cfg)) ->
  exists r,
    for_ levels
      (fun '(i, size) anchors =>
         scale <- getitem (scales cfg) i ;;
         more <- make_anchors cfg size size scale ;;
         Ok (anchors ++ more)) s = Ok r.
Proof.
  intros Hok Hidx. apply for_returns.
  intros [i size] t Hin. apply Hidx in Hin. simpl in Hin.
  unfold getitem.
  destruct (nth_error (scales cfg) i) as [scale|] eqn:Hscale;
    [|apply nth_error_None in Hscale; lia].
  cbn [bind].
  destruct (make_anchors_returns cfg size size scale Hok) as [more ->].
  cbn [bind]. eexists; reflexivity.
Qed.

Lemma levels_length (cfg : Config) (levels : list (nat * nat)) :
  length (flat_map (fun p => grid_anchors cfg (snd p) (snd p)
                               (nth (fst p) (scales cfg) 0%float))
                   levels)
  = length (aspect_ratios cfg)
    * list_sum (map (fun p => snd p * snd p) levels).
Proof.
  induction levels as [|p levels IH]; simpl; [lia|].
  rewrite length_app, IH, grid_anchors_length. lia.
Qed.

Lemma enumerate_squares (shapes : list nat) :
  map (fun p : nat * nat => snd p * snd p) (enumerate shapes)
  = map (fun L => L * L) shapes.
Proof.
  unfold enumerate. generalize 0.
  induction shapes as [|L shapes IH]; intros n; simpl; [reflexivity|].
  now rewrite IH.
Qed.

Lemma enumerate_index {A : Type} (xs : list A) (p : nat * A) :
  In p (enumerate xs) -> fst p < length xs.
Proof.
  destruct p as [i x]. unfold enumerate. intros Hin.
  apply in_combine_l in Hin. apply in_seq in Hin. simpl. lia.
Qed.

(** C1. For every configuration with [k] aspect ratios, the anchor list
    built by the constructor of [RKNNDetection] is the flattening of
    exactly [k * (L0^2 + ... + L4^2)] anchors, four numbers each, where
    [Li = ceil(544 / stride_i)] for the strides 8, 16, 32, 64, 128, that is
    68, 34, 17, 9, 5.  The constructor returns whenever the configuration
    has five scales and operands on which no division or root raises. *)
Theorem anchor_count (cfg : Config) :
  let k := length (aspect_ratios cfg) in
  let L := map (fun stride => ceil_div 544 stride) strides in
  L = [68; 34; 17; 9; 5] /\
  (config_ok cfg = true -> 5 <= length (scales cfg) ->
   exists d, RKNNDetection_init cfg = Ok d) /\
  (forall d, RKNNDetection_init cfg = Ok d ->
     exists boxes : list Anchor,
       rknn_anchors d = flatten_anchors boxes /\
       length boxes = k * list_sum (map (fun Li => Li * Li) L) /\
       length (rknn_anchors d) = 4 * (k * list_sum (map (fun Li => Li * Li) L))).
Proof.
  intros k L. split; [reflexivity|]. split.
  - intros Hok Hscales. unfold RKNNDetection_init.
    destruct (levels_loop_returns cfg
                (enumerate (map (fun stride => ceil_div 544 stride) strides))
                [] Hok) as [r Hr].
    + intros p Hp. apply enumerate_index in Hp.
      rewrite length_map in Hp. simpl in Hp. lia.
    + rewrite Hr. cbn [bind]. eexists; reflexivity.
  - intros d Hinit. unfold RKNNDetection_init in Hinit.
    destruct (for_ _ _ _) as [r|] eqn:Hr; simpl in Hinit; [|discriminate].
    injection Hinit as <-. simpl rknn_anchors.
    apply levels_loop_grid in Hr. simpl app in Hr.
    eexists. split; [exact Hr|].
    assert (Hlen : forall boxes, length boxes = k * list_sum (map (fun Li => Li * Li) L) ->
                   length (flatten_anchors boxes) = 4 * (k * list_sum (map (fun Li => Li * Li) L)))
      by (intros boxes Hb; now rewrite flatten_anchors_length, Hb).
    rewrite Hr.
    assert (Hboxes : length (flat_map (fun p => grid_anchors cfg (snd p) (snd p)
                               (nth (fst p) (scales cfg) 0%float))
                   (enumerate (map (fun stride => ceil_div 544 stride) strides)))
              = k * list_sum (map (fun Li => Li * Li) L))
      by (rewrite levels_length, enumerate_squares; reflexivity).
    split; [exact Hboxes | now apply Hlen].
Qed.

(** The published configuration yields 3 * 6175 = 18525 anchors. *)
Lemma anchor_count_witness :
  config_ok cfg544 = true /\ 5 <= length (scales cfg544) /\
  exists d, RKNNDetection_init cfg544 = Ok d /\
            Z.of_nat (length (rknn_anchors d)) = (4 * 18525)%Z.
Proof.
  split; [vm_compute; reflexivity|]. split; [simpl; lia|].
  destruct (anchor_count cfg544) as [_ [Hret Hcount]].
  destruct Hret as [d Hd]; [vm_compute; reflexivity | simpl; lia |].
  exists d. split; [exact Hd|].
  destruct (Hcount d Hd) as [boxes [_ [_ Hlen]]].
  rewrite Hlen. vm_compute. reflexivity.
Defined.

(** C2.  Take a configuration on which no division and no square root
    raises: its image size is not zero and its aspect ratios are not
    negative and have a non-zero square root.  Then [make_anchors] returns,
    for every grid and every scale, and its result is the flattening of
    [conv_h * conv_w * k] anchors in row-major order: the anchor of row
    [j], column [i] and the [a]-th aspect ratio [ar] stands at position
    [(j * conv_w + i) * k + a], with centre
    [((i + 0.5) / conv_w, (j + 0.5) / conv_h)], width
    [scale * sqrt(ar) / img_size] and height [scale / sqrt(ar) / img_size].
    The result is a function of the configuration, the grid and the scale:
    [make_anchors] reads and writes no other state. *)
Theorem make_anchors_row_major (cfg : Config) (conv_h conv_w : nat)
  (scale : float) :
  config_ok cfg = true ->
  let k := length (aspect_ratios cfg) in
  exists boxes : list Anchor,
    make_anchors cfg conv_h conv_w scale = Ok (flatten_anchors boxes) /\
    length boxes = conv_h * conv_w * k /\
    forall j i a ar,
      j < conv_h -> i < conv_w ->
      nth_error (aspect_ratios cfg) a = Some ar ->
      nth_error boxes ((j * conv_w + i) * k + a)
      = Some {| anchor_cx := (float_of_nat i + 0.5) / float_of_nat conv_w;
                anchor_cy := (float_of_nat j + 0.5) / float_of_nat conv_h;
                anchor_w := scale * PrimFloat.sqrt ar / img_size cfg;
                anchor_h := scale / PrimFloat.sqrt ar / img_size cfg |}%float.
Proof.
  intros Hok k.
  destruct (make_anchors_returns cfg conv_h conv_w scale Hok) as [l Hl].
  exists (grid_anchors cfg conv_h conv_w scale).
  split; [rewrite Hl; f_equal; now apply make_anchors_grid|].
  split; [apply grid_anchors_length|].
  intros j i a ar Hj Hi Har.
  unfold k. now rewrite (@grid_anchors_nth cfg conv_h conv_w scale j i a ar Hj Hi Har).
Qed.

(** On a 2 x 2 grid of the published configuration the anchor of row 1,
    column 0 and the third ratio is the ninth one. *)
Lemma make_anchors_row_major_witness :
  config_ok cfg544 = true /\
  exists boxes,
    make_anchors cfg544 2 2 24%float = Ok (flatten_anchors boxes) /\
    length boxes = 12 /\
    nth_error boxes 8
    = Some {| anchor_cx := 0.25; anchor_cy := 0.75;
              anchor_w := 0x1.ff1d090b39fb8p-5;
              anchor_h := 0x1.ff1d090b39fb7p-6 |}%float.
Proof.
  assert (Hok : config_ok cfg544 = true) by (vm_compute; reflexivity).
  split; [exact Hok|].
  destruct (make_anchors_row_major cfg544 2 2 24%float Hok)
    as [boxes [Hrun [Hlen Hnth]]].
  exists boxes. split; [exact Hrun|]. split; [exact Hlen|].
  assert (H := Hnth 1 0 2 2%float ltac:(lia) ltac:(lia) eq_refl).
  change ((1 * 2 + 0) * length (aspect_ratios cfg544) + 2) with 8 in H.
  rewrite H. vm_compute. reflexivity.
Defined.

(** ** Result preparation of the ONNX variant *)

Lemma Qltb_lt (a b : Q) : Qltb a b = true <-> (a < b)%Q.
Proof.
  unfold Qltb. destruct (Qlt_le_dec a b) as [Hlt|Hle]; split; auto.
  - discriminate.
  - intros Hlt. exfalso. exact (Qlt_not_le _ _ Hlt Hle).
Qed.

Lemma Qltb_ge (a b : Q) : Qltb a b = false <-> (b <= a)%Q.
Proof.
  unfold Qltb. destruct (Qlt_le_dec a b) as [Hlt|Hle]; split; auto.
  - discriminate.
  - intros Hle. exfalso. exact (Qlt_not_le _ _ Hlt Hle).
Qed.

Lemma detections_display_of (ds : list (BBox * Q * Z * ByteMask)) :
  detections (display_of ds) = ds.
Proof.
  unfold detections, display_of.
  induction ds as [|[[[b s] c] m] ds IH]; simpl; [reflexivity|].
  now rewrite IH.
Qed.

(** The loop of [prep_display] started from the sequences of [ds]. *)
Lemma prep_display_loop (self : ONNXDetection) (cands : list (Row * Mask))
  (ds : list (BBox * Q * Z * ByteMask)) :
  fold_left
    (fun (acc : Display) (rm : Row * Mask) =>
       let '(bboxes, scores, class_ids, out_masks) := acc in
       let '(result, mask) := rm in
       let bbox := {| bbox_x1 := row_x1 result; bbox_y1 := row_y1 result;
                      bbox_x2 := row_x2 result; bbox_y2 := row_y2 result |} in
       let score := row_score result in
       let class_id := py_int (row_class result) in
       if Qlt_le_dec score (threshold self) then acc
       else
         let mask := where_tag class_id mask in
         let region := crop bbox (shape mask) in
         let cropped := assign_region region mask in
         (bboxes ++ [bbox], scores ++ [score], class_ids ++ [class_id],
          out_masks ++ [cropped]))
    cands (display_of ds)
  = display_of
      (ds ++ map prepared
               (filter (fun rm => negb (Qltb (row_score (fst rm)) (threshold self)))
                       cands)).
Proof.
  revert ds. induction cands as [|[result mask] cands IH]; intros ds.
  - simpl. now rewrite app_nil_r.
  - cbn [fold_left filter fst]. unfold Qltb at 1.
    destruct (Qlt_le_dec (row_score result) (threshold self)) as [Hlt|Hge].
    + cbn [negb]. unfold display_of at 1. fold (display_of ds). apply IH.
    + cbn [negb map]. unfold display_of at 1.
      specialize (IH (ds ++ [prepared (result, mask)])).
      rewrite <- app_assoc in IH. cbn [app] in IH.
      rewrite <- IH. f_equal.
      unfold display_of. rewrite !map_app. reflexivity.
Qed.

(** [prep_display] returns the prepared survivors, in input order. *)
Lemma prep_display_survivors (self : ONNXDetection) (rows : list Row)
  (masks : list Mask) :
  prep_display self rows masks
  = display_of (map prepared (survivors self rows masks)).
Proof.
  unfold prep_display, survivors.
  exact (prep_display_loop self (zip rows masks) []).
Qed.

Lemma survivors_spec (self : ONNXDetection) (rows : list Row)
  (masks : list Mask) (rm : Row * Mask) :
  In rm (survivors self rows masks) <->
  In rm (zip rows masks) /\ ~ (row_score (fst rm) < threshold self)%Q.
Proof.
  unfold survivors. rewrite filter_In, negb_true_iff, Qltb_ge.
  split; intros [Hin Hs]; split; auto.
  - now apply Qle_not_lt.
  - now apply Qnot_lt_le.
Qed.

(** C3. Every score that [prep_display] returns is at least the
    threshold; a candidate (a row of [results[0][0]] paired with its mask)
    whose score is below the threshold is dropped, and every other
    candidate is kept, in input order, in each of the four sequences. *)
Theorem prep_display_threshold (self : ONNXDetection) (rows : list Row)
  (masks : list Mask) (bboxes : list BBox) (scores : list Q)
  (class_ids : list Z) (out_masks : list ByteMask) :
  prep_display self rows masks = (bboxes, scores, class_ids, out_masks) ->
  let kept := survivors self rows masks in
  Forall (fun score => (threshold self <= score)%Q) scores /\
  (forall rm, In rm kept <->
     In rm (zip rows masks) /\ ~ (row_score (fst rm) < threshold self)%Q) /\
  bboxes = map (fun rm => row_bbox (fst rm)) kept /\
  scores = map (fun rm => row_score (fst rm)) kept /\
  class_ids = map (fun rm => py_int (row_class (fst rm))) kept /\
  out_masks = map (fun rm => cropped_mask (py_int (row_class (fst rm)))
                                          (row_bbox (fst rm)) (snd rm)) kept.
Proof.
  intros Hrun kept. rewrite prep_display_survivors in Hrun.
  fold kept in Hrun. unfold display_of in Hrun. rewrite !map_map in Hrun.
  injection Hrun as <- <- <- <-. cbn [prepared fst snd].
  split; [|split; [|split; [|split; [|split]]]]; try reflexivity.
  - apply Forall_forall. intros s Hs. apply in_map_iff in Hs as [rm [<- Hin]].
    apply survivors_spec in Hin as [_ Hge]. now apply Qnot_lt_le.
  - intros rm. apply survivors_spec.
Qed.

Lemma prep_display_threshold_witness :
  Forall (fun score => (threshold ONNXDetection_init <= score)%Q) [9 # 10]%Q /\
  [9 # 10]%Q
  = map (fun rm => row_score (fst rm))
        (survivors ONNXDetection_init [row_a; row_b] [mask_a; mask_a]).
Proof.
  destruct (@prep_display_threshold ONNXDetection_init [row_a; row_b]
              [mask_a; mask_a] [row_bbox row_a] [9 # 10]%Q [2%Z]
              [cropped_mask 2 (row_bbox row_a) mask_a])
    as [Hge [_ [_ [Hscores _]]]].
  - vm_compute. reflexivity.
  - split; [exact Hge | exact Hscores].
Defined.

Lemma filter_map_comm {A B : Type} (p : B -> bool) (g : A -> B) (xs : list A) :
  filter p (map g xs) = map g (filter (fun x => p (g x)) xs).
Proof.
  induction xs as [|x xs IH]; simpl; [reflexivity|].
  rewrite IH. now destruct (p (g x)).
Qed.

Lemma filter_filter {A : Type} (p q : A -> bool) (xs : list A) :
  (forall x, p x = true -> q x = true) ->
  filter p (filter q xs) = filter p xs.
Proof.
  intros Hpq. induction xs as [|x xs IH]; simpl; [reflexivity|].
  destruct (q x) eqn:Hq; simpl.
  - now rewrite IH.
  - destruct (p x) eqn:Hp; [|exact IH].
    apply Hpq in Hp. congruence.
Qed.

Lemma filter_length_le {A : Type} (p : A -> bool) (xs : list A) :
  length (filter p xs) <= length xs.
Proof. induction xs as [|x xs IH]; simpl; [lia|]. destruct (p x); simpl; lia. Qed.

(** C7. For thresholds [t1 <= t2] and the same raw results, the
    detections returned at [t2] are those returned at [t1] whose score is
    not below [t2]: they form a subset, and there are no more of them. *)
Theorem prep_display_monotone (self1 self2 : ONNXDetection)
  (rows : list Row) (masks : list Mask) :
  (threshold self1 <= threshold self2)%Q ->
  let d1 := detections (prep_display self1 rows masks) in
  let d2 := detections (prep_display self2 rows masks) in
  d2 = filter (fun d => negb (Qltb (snd (fst (fst d))) (threshold self2))) d1 /\
  incl d2 d1 /\
  length d2 <= length d1 /\
  incl (survivors self2 rows masks) (survivors self1 rows masks).
Proof.
  intros Hle d1 d2.
  assert (Hd : d2 = filter (fun d => negb (Qltb (snd (fst (fst d))) (threshold self2))) d1).
  { unfold d1, d2. rewrite !prep_display_survivors, !detections_display_of.
    rewrite filter_map_comm. cbn [prepared fst snd]. f_equal.
    unfold survivors. rewrite filter_filter; [reflexivity|].
    intros rm. rewrite !negb_true_iff, !Qltb_ge. intros H2.
    now apply Qle_trans with (threshold self2). }
  split; [exact Hd|]. split; [|split].
  - rewrite Hd. intros d Hin. now apply filter_In in Hin.
  - rewrite Hd. apply filter_length_le.
  - intros rm. rewrite !survivors_spec. intros [Hin Hge]. split; [exact Hin|].
    intros Hlt. apply Hge. now apply Qlt_le_trans with (threshold self1).
Qed.

Lemma prep_display_monotone_witness :
  (threshold ONNXDetection_init <= 1 # 2)%Q /\
  length (detections (prep_display {| onnx_input_size := 550; threshold := 1 # 2 |}
                                   [row_a; row_b] [mask_a; mask_a]))
  <= length (detections (prep_display ONNXDetection_init
                                      [row_a; row_b] [mask_a; mask_a])).
Proof.
  assert (H : (threshold ONNXDetection_init <= 1 # 2)%Q)
    by (vm_compute; discriminate).
  split; [exact H|].
  exact (proj1 (proj2 (proj2
    (@prep_display_monotone ONNXDetection_init
       {| onnx_input_size := 550; threshold := 1 # 2 |}
       [row_a; row_b] [mask_a; mask_a] H)))).
Defined.

(** ** Tagged and cropped masks *)

Lemma nth_error_mapi_from {A B : Type} (f : nat -> A -> B) (xs : list A)
  (s n : nat) :
  nth_error (map (fun p => f (fst p) (snd p)) (combine (seq s (length xs)) xs)) n
  = option_map (f (s + n)) (nth_error xs n).
Proof.
  revert s n. induction xs as [|x xs IH]; intros s n; simpl.
  - now destruct n.
  - destruct n as [|n]; simpl.
    + now rewrite Nat.add_0_r.
    + rewrite IH. now rewrite Nat.add_succ_r.
Qed.

Lemma nth_error_mapi {A B : Type} (f : nat -> A -> B) (xs : list A) (n : nat) :
  nth_error (mapi f xs) n = option_map (f n) (nth_error xs n).
Proof. unfold mapi, enumerate. apply nth_error_mapi_from. Qed.

Lemma nth_of_nth_error {A : Type} (xs : list A) (n : nat) (d : A) :
  nth n xs d = match nth_error xs n with Some x => x | None => d end.
Proof.
  revert n. induction xs as [|x xs IH]; intros [|n]; simpl; auto.
Qed.

Lemma pixel_assign_region (region : slice * slice) (m : ByteMask) (r c : nat) :
  pixel 0%Z (assign_region region m) r c
  = if in_slice (fst region) r && in_slice (snd region) c
    then pixel 0%Z m r c else 0%Z.
Proof.
  unfold pixel, assign_region.
  rewrite (nth_of_nth_error (mapi _ m) r), nth_error_mapi.
  rewrite (nth_of_nth_error m r).
  destruct (nth_error m r) as [row|]; simpl.
  - rewrite (nth_of_nth_error (mapi _ row) c), nth_error_mapi.
    rewrite (nth_of_nth_error row c).
    destruct (nth_error row c) as [v|]; simpl; [reflexivity|].
    now destruct (in_slice (fst region) r && in_slice (snd region) c).
  - destruct c; now destruct (in_slice (fst region) r && in_slice (snd region) _).
Qed.

Lemma pixel_where_tag (class_id : Z) (mask : Mask) (r c : nat) :
  pixel 0%Z (where_tag class_id mask) r c
  = if Qltb (1 # 2) (pixel 0%Q mask r c) then uint8 (class_id + 1) else 0%Z.
Proof.
  unfold pixel, where_tag, Qltb.
  rewrite (nth_of_nth_error (map _ mask) r), nth_error_map.
  rewrite (nth_of_nth_error mask r).
  destruct (nth_error mask r) as [row|]; simpl.
  - rewrite (nth_of_nth_error (map _ row) c), nth_error_map.
    rewrite (nth_of_nth_error row c).
    destruct (nth_error row c) as [v|]; simpl.
    + now destruct (Qlt_le_dec (1 # 2) v).
    + destruct (Qlt_le_dec (1 # 2) 0) as [H|H]; [discriminate H | reflexivity].
  - destruct (Qlt_le_dec (1 # 2) 0) as [H|H]; [discriminate H|].
    now destruct c.
Qed.

Lemma shape_where_tag (class_id : Z) (mask : Mask) :
  shape (where_tag class_id mask) = shape mask.
Proof.
  unfold shape, where_tag. rewrite length_map.
  destruct mask as [|row mask]; simpl; [reflexivity|].
  now rewrite length_map.
Qed.

(** [int(max(q, 0))] is the floor of [q], raised to zero. *)
Lemma py_int_max_floor (q : Q) : py_int (py_max q 0) = Z.max 0 (Qfloor q).
Proof.
  unfold py_max, py_int. destruct (Qlt_le_dec q 0) as [Hneg|Hpos].
  - change (Qnum 0 ÷ Z.pos (Qden 0))%Z with 0%Z.
    assert (Qfloor q < 0)%Z; [|lia].
    destruct q as [n d]. unfold Qlt in Hneg. cbn [Qnum Qden] in Hneg.
    unfold Qfloor. apply Z.div_lt_upper_bound; lia.
  - destruct q as [n d]. unfold Qle in Hpos. cbn [Qnum Qden] in *.
    unfold Qfloor. rewrite Z.quot_div_nonneg by lia.
    assert (0 <= n / Z.pos d)%Z by (apply Z.div_pos; lia). lia.
Qed.

Lemma pixel_cropped_mask (class_id : Z) (bbox : BBox) (mask : Mask) (r c : nat) :
  let h := Q_of_nat (fst (shape mask)) in
  let w := Q_of_nat (snd (shape mask)) in
  let x1 := Z.max 0 (Qfloor (bbox_x1 bbox * w)) in
  let y1 := Z.max 0 (Qfloor (bbox_y1 bbox * h)) in
  let x2 := Z.max 0 (Qfloor (bbox_x2 bbox * w)) in
  let y2 := Z.max 0 (Qfloor (bbox_y2 bbox * h)) in
  pixel 0%Z (cropped_mask class_id bbox mask) r c
  = if ((y1 <=? Z.of_nat r) && (Z.of_nat r <? y2)
        && ((x1 <=? Z.of_nat c) && (Z.of_nat c <? x2)))%Z
    then if Qltb (1 # 2) (pixel 0%Q mask r c)
         then ((class_id + 1) mod 256)%Z else 0%Z
    else 0%Z.
Proof.
  intros h w x1 y1 x2 y2. unfold cropped_mask.
  rewrite pixel_assign_region, pixel_where_tag, shape_where_tag.
  unfold crop, in_slice. cbn [fst snd start stop].
  rewrite !py_int_max_floor. reflexivity.
Qed.

(** C4.  For the [n]-th surviving instance, with a class id [c] whose tag
    [c + 1] is a byte that is not zero ([0 <= c <= 254]: every index of the
    label table is one), and a mask of shape [(h, w)], let the box be
    mapped to the pixel grid by [x = max(0, floor(coord * w))] and
    [y = max(0, floor(coord * h))].  A pixel of its cropped mask is [c + 1]
    when it lies in rows [y1 <= r < y2] and columns [x1 <= col < x2] and the
    predicted mask exceeds 0.5 there, and 0 everywhere else; so every
    non-background pixel equals [c + 1] and every pixel outside the box is
    0. *)
Theorem cropped_mask_tagging (self : ONNXDetection) (rows : list Row)
  (masks : list Mask) (bboxes : list BBox) (scores : list Q)
  (class_ids : list Z) (out_masks : list ByteMask)
  (n : nat) (row : Row) (mask : Mask) :
  prep_display self rows masks = (bboxes, scores, class_ids, out_masks) ->
  nth_error (survivors self rows masks) n = Some (row, mask) ->
  let c := py_int (row_class row) in
  (0 <= c <= 254)%Z ->
  let h := Q_of_nat (fst (shape mask)) in
  let w := Q_of_nat (snd (shape mask)) in
  let x1 := Z.max 0 (Qfloor (row_x1 row * w)) in
  let y1 := Z.max 0 (Qfloor (row_y1 row * h)) in
  let x2 := Z.max 0 (Qfloor (row_x2 row * w)) in
  let y2 := Z.max 0 (Qfloor (row_y2 row * h)) in
  let inside (r col : nat) :=
    (y1 <= Z.of_nat r < y2 /\ x1 <= Z.of_nat col < x2)%Z in
  nth_error class_ids n = Some c /\
  exists cropped : ByteMask,
    nth_error out_masks n = Some cropped /\
    (forall r col, inside r col -> (1 # 2 < pixel 0%Q mask r col)%Q ->
       pixel 0%Z cropped r col = (c + 1)%Z) /\
    (forall r col, inside r col -> ~ (1 # 2 < pixel 0%Q mask r col)%Q ->
       pixel 0%Z cropped r col = 0%Z) /\
    (forall r col, ~ inside r col -> pixel 0%Z cropped r col = 0%Z) /\
    (forall r col, pixel 0%Z cropped r col <> 0%Z ->
       pixel 0%Z cropped r col = (c + 1)%Z).
Proof.
  intros Hrun Hn c Hc h w x1 y1 x2 y2 inside.
  assert (Htag : ((c + 1) mod 256 = c + 1)%Z) by (apply Z.mod_small; lia).
  rewrite prep_display_survivors in Hrun. unfold display_of in Hrun.
  rewrite !map_map in Hrun. injection Hrun as _ _ <- <-.
  rewrite !nth_error_map, Hn. cbn [option_map prepared fst snd].
  fold c. split; [reflexivity|].
  eexists. split; [reflexivity|].
  assert (Hpix : forall r col,
    pixel 0%Z (cropped_mask c (row_bbox row) mask) r col
    = if ((y1 <=? Z.of_nat r) && (Z.of_nat r <? y2)
          && ((x1 <=? Z.of_nat col) && (Z.of_nat col <? x2)))%Z
      then if Qltb (1 # 2) (pixel 0%Q mask r col)
           then ((c + 1) mod 256)%Z else 0%Z
      else 0%Z)
    by (intros r col; apply pixel_cropped_mask).
  assert (Hin : forall r col,
    ((y1 <=? Z.of_nat r) && (Z.of_nat r <? y2)
     && ((x1 <=? Z.of_nat col) && (Z.of_nat col <? x2)))%Z = true
    <-> inside r col).
  { intros r col. unfold inside.
    rewrite !andb_true_iff, !Z.leb_le, !Z.ltb_lt. tauto. }
  split; [|split; [|split]].
  - intros r col Hi Hgt. rewrite Hpix.
    apply Hin in Hi. rewrite Hi.
    apply Qltb_lt in Hgt. rewrite Hgt. exact Htag.
  - intros r col Hi Hle. rewrite Hpix.
    apply Hin in Hi. rewrite Hi.
    destruct (Qltb _ _) eqn:Hgt; [|reflexivity].
    apply Qltb_lt in Hgt. contradiction.
  - intros r col Hout. rewrite Hpix.
    destruct (_ && _)%bool eqn:Hi; [|reflexivity].
    apply Hin in Hi. contradiction.
  - intros r col. rewrite Hpix.
    destruct (_ && _)%bool; [|congruence].
    destruct (Qltb _ _); [|congruence].
    intros _. exact Htag.
Qed.

(** Class 2 on a 4 x 4 mask with the box [[1/4, 0, 3/4, 1/2]]: the
    tagged pixels are 3 and lie in rows 0..1 and columns 1..2. *)
Lemma cropped_mask_tagging_witness :
  prep_display ONNXDetection_init [row_a] [mask_a]
  = ([row_bbox row_a], [9 # 10]%Q, [2%Z],
     [[[0; 3; 3; 0]; [0; 0; 3; 0]; [0; 0; 0; 0]; [0; 0; 0; 0]]%Z]) /\
  nth_error (survivors ONNXDetection_init [row_a] [mask_a]) 0
  = Some (row_a, mask_a) /\
  (0 <= py_int (row_class row_a) <= 254)%Z /\
  exists cropped : ByteMask,
    nth_error [[[0; 3; 3; 0]; [0; 0; 3; 0]; [0; 0; 0; 0]; [0; 0; 0; 0]]%Z] 0
    = Some cropped /\
    forall r col, pixel 0%Z cropped r col <> 0%Z ->
                  pixel 0%Z cropped r col = (2 + 1)%Z.
Proof.
  assert (Hrun : prep_display ONNXDetection_init [row_a] [mask_a]
    = ([row_bbox row_a], [9 # 10]%Q, [2%Z],
       [[[0; 3; 3; 0]; [0; 0; 3; 0]; [0; 0; 0; 0]; [0; 0; 0; 0]]%Z]))
    by (vm_compute; reflexivity).
  assert (Hn : nth_error (survivors ONNXDetection_init [row_a] [mask_a]) 0
               = Some (row_a, mask_a)) by (vm_compute; reflexivity).
  assert (Hid : (0 <= py_int (row_class row_a) <= 254)%Z)
    by (vm_compute; split; discriminate).
  split; [exact Hrun|]. split; [exact Hn|]. split; [exact Hid|].
  destruct (cropped_mask_tagging _ _ _ _ Hrun Hn Hid)
    as [_ [cropped [Hc [_ [_ [_ Htag]]]]]].
  exists cropped. split; [exact Hc|]. exact Htag.
Defined.

(** ** Compositing of instance masks *)

Lemma fold_left_add_Zsum (l : list Z) (a : Z) :
  fold_left Z.add l a = (a + Zsum l)%Z.
Proof.
  revert a. induction l as [|x l IH]; intros a; simpl; [lia|].
  rewrite IH. lia.
Qed.

Lemma pixel_grid {B : Type} (g : nat -> nat -> B) (h w r c : nat) (d : B) :
  r < h -> c < w ->
  pixel d (map (fun r => map (fun c => g r c) (range w)) (range h)) r c = g r c.
Proof.
  intros Hr Hc. unfold pixel, range.
  rewrite (nth_indep _ [] ((fun r => map (fun c => g r c) (seq 0 w)) 0))
    by (now rewrite length_map, length_seq).
  rewrite (map_nth (fun r => map (fun c => g r c) (seq 0 w))), seq_nth by lia.
  rewrite (nth_indep _ d (g (0 + r) 0)) by (now rewrite length_map, length_seq).
  rewrite (map_nth (fun c => g (0 + r) c)), seq_nth by lia.
  reflexivity.
Qed.

Lemma pixel_map_map {A B : Type} (g : A -> B) (m : list (list A)) (d : A)
  (r c : nat) :
  pixel (g d) (map (map g) m) r c = g (pixel d m r c).
Proof.
  unfold pixel.
  change (@nil B) with (map g []). rewrite (map_nth (map g)).
  apply map_nth.
Qed.

Lemma pixel_scale_plane (t : Z) (m : Mask) (r c : nat) :
  pixel 0%Q (scale_plane t m) r c = (pixel 0%Q m r c * inject_Z t)%Q.
Proof.
  unfold scale_plane.
  exact (pixel_map_map (fun v => (v * inject_Z t)%Q) m 0%Q r c).
Qed.

Lemma py_int_inject (q : Q) (z : Z) : (q == inject_Z z)%Q -> py_int q = z.
Proof.
  destruct q as [n d]. unfold Qeq, py_int. cbn [Qnum Qden inject_Z].
  intros H. replace n with (z * Z.pos d)%Z by lia.
  apply Z.quot_mul. discriminate.
Qed.

Lemma py_int_covered (v : Q) (t : Z) :
  (v == 0 \/ v == 1)%Q ->
  py_int (v * inject_Z t) = if Qeq_bool v 1 then t else 0%Z.
Proof.
  intros [H0|H1].
  - assert (Hb : Qeq_bool v 1 = false).
    { apply not_true_is_false. intros Hb. apply Qeq_bool_eq in Hb.
      rewrite H0 in Hb. discriminate Hb. }
    rewrite Hb. apply py_int_inject. rewrite H0. reflexivity.
  - rewrite (Qeq_eq_bool _ _ H1). apply py_int_inject.
    rewrite H1. apply Qmult_1_l.
Qed.

Lemma broadcast_mul_aligned (ms : list Mask) (ids_p : list Z) :
  length ms = length ids_p ->
  broadcast_mul ms ids_p
  = Ok (map (fun mi => scale_plane (snd mi + 1) (fst mi)) (combine ms ids_p)).
Proof.
  intros Hlen. unfold broadcast_mul.
  rewrite length_map, Hlen, Nat.eqb_refl. f_equal.
  revert ids_p Hlen. induction ms as [|m ms IH]; intros [|i ids] Hlen;
    simpl in *; try reflexivity; try discriminate.
  f_equal. apply IH. lia.
Qed.

(** The index of a pixel inside the frame, for aligned arrays. *)
Lemma masks_semantic_pixel (mask_p : Masks) (ids_p : list Z) :
  length (planes mask_p) = length ids_p ->
  exists idx,
    masks_semantic mask_p ids_p = Ok idx /\
    forall r c, r < masks_h mask_p -> c < masks_w mask_p ->
      pixel 0%Z idx r c
      = (Zsum (map (fun mi => py_int (pixel 0%Q (fst mi) r c
                                      * inject_Z (snd mi + 1)))
                   (combine (planes mask_p) ids_p))
         mod (Z.of_nat (length COCO_CLASSES) - 1))%Z.
Proof.
  intros Hlen. unfold masks_semantic.
  rewrite (broadcast_mul_aligned _ _ Hlen). cbn [bind].
  eexists. split; [reflexivity|].
  intros r c Hr Hc.
  change 0%Z with ((fun v => (v mod (Z.of_nat (length COCO_CLASSES) - 1))%Z) 0%Z) at 1.
  rewrite pixel_map_map. f_equal.
  unfold sum_axis0. rewrite pixel_grid by assumption.
  rewrite fold_left_add_Zsum, map_map. simpl Z.add. f_equal.
  apply map_ext. intros [m i]. cbn [fst snd].
  now rewrite pixel_scale_plane.
Qed.

(** C5. With one binary mask per instance, the palette index that
    [rknn_draw] computes for a pixel is the sum of the tags [class_id + 1]
    of the instances whose mask covers the pixel, reduced modulo the number
    of classes minus one, which is 79 for the 80 labels of [COCO_CLASSES].
    The index is a function of the masks and the ids alone. *)
Theorem palette_index_is_tag_sum (mask_p : Masks) (ids_p : list Z) :
  length (planes mask_p) = length ids_p ->
  (forall m r c, In m (planes mask_p) ->
     (pixel 0 m r c == 0 \/ pixel 0 m r c == 1)%Q) ->
  Z.of_nat (length COCO_CLASSES) = 80%Z /\
  exists idx,
    masks_semantic mask_p ids_p = Ok idx /\
    forall r c, r < masks_h mask_p -> c < masks_w mask_p ->
      pixel 0%Z idx r c
      = (Zsum (map (fun mi => if Qeq_bool (pixel 0%Q (fst mi) r c) 1
                              then snd mi + 1 else 0)
                   (combine (planes mask_p) ids_p))
         mod (80 - 1))%Z.
Proof.
  intros Hlen Hbin. split; [reflexivity|].
  destruct (masks_semantic_pixel mask_p ids_p Hlen) as [idx [Hrun Hpix]].
  exists idx. split; [exact Hrun|].
  intros r c Hr Hc. rewrite (Hpix r c Hr Hc).
  change (Z.of_nat (length COCO_CLASSES) - 1)%Z with (80 - 1)%Z.
  f_equal. f_equal. apply map_ext_in. intros [m i] Hin. cbn [fst snd].
  apply py_int_covered. apply Hbin. now apply in_combine_l in Hin.
Qed.

(** Two instances with tags 3 and 5 (class ids 2 and 4) that overlap at
    pixel (0, 0): the index there is (3 + 5) mod 79. *)
Lemma palette_index_is_tag_sum_witness :
  exists idx,
    masks_semantic two_masks [2; 4]%Z = Ok idx /\
    pixel 0%Z idx 0 0 = ((3 + 5) mod 79)%Z.
Proof.
  destruct (@palette_index_is_tag_sum two_masks [2; 4]%Z eq_refl)
    as [_ [idx [Hrun Hpix]]].
  - intros m r c [<-|[<-|[]]];
      destruct r as [|[|[|r]]]; destruct c as [|[|[|c]]];
      ((left; reflexivity) || (right; reflexivity)).
  - exists idx. split; [exact Hrun|].
    rewrite (Hpix 0 0); [reflexivity | simpl; lia | simpl; lia].
Defined.

Section Rendering.

Variable Image : Type.
Variable addWeighted : list (list Color) -> Q -> Image -> Q -> Image.
Variable rectangle : Image -> Z * Z -> Z * Z -> Color -> Z -> Image.
Variable getTextSize : string -> Q -> Z -> Z * Z.
Variable putText : Image -> string -> Z * Z -> Q -> Color -> Z -> Image.
Variable format_label : string -> Q -> string.

(** C8. When every candidate is below the threshold, [prep_display]
    returns four empty sequences (it has no raising path); and
    [rknn_draw] returns the original image when [ids_p] is [None]. *)
Theorem empty_result_is_not_an_error (self : ONNXDetection)
  (rows : list Row) (masks : list Mask) (img_origin : Image)
  (class_p : list Q) (box_p : list (Z * Z * Z * Z)) (mask_p : Masks) :
  Forall (fun rm => (row_score (fst rm) < threshold self)%Q)
         (zip rows masks) ->
  prep_display self rows masks = ([], [], [], []) /\
  rknn_draw addWeighted rectangle getTextSize putText format_label
            img_origin None class_p box_p mask_p
  = Ok img_origin.
Proof.
  intros Hall. split; [|reflexivity].
  rewrite prep_display_survivors. unfold survivors.
  replace (filter _ (zip rows masks)) with (@nil (Row * Mask));
    [reflexivity|].
  symmetry. induction (zip rows masks) as [|rm cands IH]; [reflexivity|].
  inversion Hall as [|? ? Hrm Hrest]; subst. cbn [filter].
  apply Qltb_lt in Hrm. rewrite Hrm. cbn [negb]. now apply IH.
Qed.

End Rendering.

Lemma empty_result_is_not_an_error_witness :
  Forall (fun rm => (row_score (fst rm) < threshold ONNXDetection_init)%Q)
         (zip [row_b] [mask_c]) /\
  prep_display ONNXDetection_init [row_b] [mask_c] = ([], [], [], []) /\
  rknn_draw (fun _ _ (img : unit) _ => img) (fun img _ _ _ _ => img)
            (fun _ _ _ => (0, 0)%Z) (fun img _ _ _ _ _ => img)
            (fun name _ => name) tt None [] [] two_masks
  = Ok tt.
Proof.
  assert (H : Forall (fun rm => (row_score (fst rm) < threshold ONNXDetection_init)%Q)
                     (zip [row_b] [mask_c]))
    by (repeat constructor).
  split; [exact H|].
  exact (@empty_result_is_not_an_error unit
           (fun _ _ img _ => img) (fun img _ _ _ _ => img)
           (fun _ _ _ => (0, 0)%Z) (fun img _ _ _ _ _ => img)
           (fun name _ => name)
           ONNXDetection_init [row_b] [mask_c] tt [] [] two_masks H).
Defined.

(** ** The random colour table *)

Section ColorTable.

Variable rng : Type.
Variable np_random_seed : Z -> rng.
Variable np_random_randint : Z -> Z -> nat -> rng -> list Z * rng.

(** A loop that appends one entry per step lengthens the list by the
    number of steps and keeps what it started with. *)
Lemma appending_fold (f : list Color * rng -> nat -> list Color * rng) :
  (forall colors st d, exists color st',
      f (colors, st) d = (colors ++ [color], st')) ->
  forall (draws : list nat) (colors : list Color) (st : rng),
  exists more,
    fst (fold_left f draws (colors, st)) = colors ++ more
    /\ length more = length draws.
Proof.
  intros Hstep draws.
  induction draws as [|d draws IH]; intros colors st.
  - exists []. split; [simpl; now rewrite app_nil_r | reflexivity].
  - cbn [fold_left].
    destruct (Hstep colors st d) as [color [st' ->]].
    destruct (IH (colors ++ [color]) st') as [more [Heq Hlen]].
    exists (color :: more). split.
    + rewrite Heq, <- app_assoc. reflexivity.
    + simpl. now rewrite Hlen.
Qed.

(** C10. [get_colors(num)] does not depend on the state the generator
    is in when it is called: two calls return the same list and leave
    the same state, because the generator is reseeded with 0 first.  The
    list has [num + 1] entries and starts with the background colour
    [[0, 0, 0]]. *)
Theorem get_colors_deterministic (num : nat) (st1 st2 : rng) :
  get_colors np_random_seed np_random_randint num st1
  = get_colors np_random_seed np_random_randint num st2 /\
  length (fst (get_colors np_random_seed np_random_randint num st1)) = num + 1 /\
  nth_error (fst (get_colors np_random_seed np_random_randint num st1)) 0
  = Some [0; 0; 0]%Z.
Proof.
  split; [reflexivity|].
  unfold get_colors. cbv zeta.
  match goal with
  | |- context [fold_left ?f _ _] =>
      destruct (@appending_fold f) with (draws := range num)
        (colors := [[0; 0; 0]%Z]) (st := np_random_seed 0)
        as [more [Heq Hlen]]
  end.
  { intros colors st d.
    destruct (np_random_randint 0%Z 256%Z 3 st) as [color st'].
    now exists (map uint8 color), st'. }
  split.
  - etransitivity; [exact (f_equal (@length Color) Heq)|].
    rewrite length_app, Hlen. unfold range. rewrite length_seq.
    simpl. lia.
  - etransitivity;
      [exact (f_equal (fun l => nth_error l 0) Heq) | reflexivity].
Qed.

End ColorTable.

(** * Further properties *)

(** ** Loops *)

(** A loop whose steps leave the state as it is returns the initial state. *)
Lemma for_idle {A S : Type} (body : A -> S -> result S) (xs : list A) (s : S) :
  (forall x t, In x xs -> body x t = Ok t) -> for_ xs body s = Ok s.
Proof.
  induction xs as [|x xs IH]; intros Hidle; simpl; [reflexivity|].
  rewrite Hidle by now left. simpl. apply IH.
  intros y t Hy. apply Hidle. now right.
Qed.

(** A loop raises only what one of its steps raises. *)
Lemma for_raise_inv {A S : Type} (body : A -> S -> result S) (xs : list A)
  (s : S) (e : exn) :
  for_ xs body s = Raise e ->
  exists x t, In x xs /\ body x t = Raise e.
Proof.
  revert s. induction xs as [|x xs IH]; intros s Hrun; simpl in Hrun;
    [discriminate|].
  destruct (body x s) as [s'|e'] eqn:Hx; simpl in Hrun.
  - destruct (IH _ Hrun) as [y [t [Hy Ht]]]. exists y, t. split; [now right | exact Ht].
  - injection Hrun as ->. exists x, s. split; [now left | exact Hx].
Qed.

(** Two loops with bodies that agree on the list behave alike. *)
Lemma for_ext {A S : Type} (body1 body2 : A -> S -> result S) (xs : list A) :
  (forall x t, In x xs -> body1 x t = body2 x t) ->
  forall s, for_ xs body1 s = for_ xs body2 s.
Proof.
  induction xs as [|x xs IH]; intros Hext s; simpl; [reflexivity|].
  rewrite Hext by now left.
  destruct (body2 x s) as [s'|e]; simpl; [|reflexivity].
  apply IH. intros y t Hy. apply Hext. now right.
Qed.

(** A loop raises what its first raising step raises. *)
Lemma for_first_raise {A S : Type} (body : A -> S -> result S)
  (xs ys : list A) (x : A) (e : exn) :
  (forall y t, In y xs -> exists r, body y t = Ok r) ->
  (forall t, body x t = Raise e) ->
  forall s, for_ (xs ++ x :: ys) body s = Raise e.
Proof.
  induction xs as [|y xs IH]; intros Hok Hx s; simpl.
  - now rewrite Hx.
  - destruct (Hok y s (or_introl eq_refl)) as [r ->]. simpl.
    apply IH; [|exact Hx]. intros z t Hz. apply Hok. now right.
Qed.

(** ** Anchor generation: edges and errors *)

Lemma product_nil_r {A B : Type} (xs : list A) : product xs (@nil B) = [].
Proof. unfold product. induction xs; simpl; auto. Qed.

(** X1. A level without cells, or a configuration without aspect ratios, gives
    no anchors and no error, whatever the rest of the configuration. *)
Theorem make_anchors_nothing_to_emit (cfg : Config) (conv_h conv_w : nat)
  (scale : float) :
  conv_h = 0 \/ conv_w = 0 \/ aspect_ratios cfg = [] ->
  make_anchors cfg conv_h conv_w scale = Ok [].
Proof.
  intros [-> | [-> | Hars]]; unfold make_anchors.
  - reflexivity.
  - unfold range at 2. simpl seq. now rewrite product_nil_r.
  - apply for_idle. intros [j i] t Hin.
    apply in_product_range in Hin as [Hj Hi].
    destruct conv_w as [|w']; [lia|]. destruct conv_h as [|h']; [lia|].
    cbn [truediv_size bind]. now rewrite Hars.
Qed.

Lemma make_anchors_nothing_to_emit_witness :
  make_anchors {| aspect_ratios := [0%float]; scales := [];
                  img_size := 0%float |} 0 7 24%float = Ok [].
Proof.
  apply make_anchors_nothing_to_emit. now left.
Defined.

(** X2. When [make_anchors] raises [ValueError], some aspect ratio is
    negative; when it raises [ZeroDivisionError], the image size is zero or
    some aspect ratio has a zero square root. *)
Theorem make_anchors_error_causes (cfg : Config) (conv_h conv_w : nat)
  (scale : float) :
  (make_anchors cfg conv_h conv_w scale = Raise ValueError ->
   exists ar, In ar (aspect_ratios cfg) /\ PrimFloat.ltb ar 0 = true) /\
  (make_anchors cfg conv_h conv_w scale = Raise ZeroDivisionError ->
   PrimFloat.eqb (img_size cfg) 0 = true \/
   exists ar, In ar (aspect_ratios cfg) /\
              PrimFloat.eqb (PrimFloat.sqrt ar) 0 = true).
Proof.
  assert (Hstep : forall e, make_anchors cfg conv_h conv_w scale = Raise e ->
    exists ar, In ar (aspect_ratios cfg) /\
      (ar <- Py.sqrt ar ;;
       w <- truediv (PrimFloat.mul scale ar) (img_size cfg) ;;
       h0 <- truediv scale ar ;;
       h <- truediv h0 (img_size cfg) ;;
       Ok tt) = Raise e).
  { unfold make_anchors. intros e Hrun.
    apply for_raise_inv in Hrun as [[j i] [t [Hin Hcell]]].
    apply in_product_range in Hin as [Hj Hi].
    destruct conv_w as [|w']; [lia|]. destruct conv_h as [|h']; [lia|].
    cbn [truediv_size bind] in Hcell.
    apply for_raise_inv in Hcell as [ar [u [Har Hstep]]].
    exists ar. split; [exact Har|].
    destruct (Py.sqrt ar) as [sq|]; cbn [bind] in *; [|congruence].
    destruct (truediv (PrimFloat.mul scale sq) (img_size cfg));
      cbn [bind] in *; [|congruence].
    destruct (truediv scale sq) as [h0|]; cbn [bind] in *; [|congruence].
    destruct (truediv h0 (img_size cfg)); cbn [bind] in *; [|congruence].
    discriminate. }
  split; intros Hrun; apply Hstep in Hrun as [ar [Har Hrun]];
    unfold Py.sqrt, truediv in Hrun.
  - exists ar. split; [exact Har|].
    destruct (PrimFloat.ltb ar 0); [reflexivity|]. cbn [bind] in Hrun.
    destruct (PrimFloat.eqb (img_size cfg) 0); cbn [bind] in Hrun;
      [discriminate|].
    destruct (PrimFloat.eqb (PrimFloat.sqrt ar) 0); cbn [bind] in Hrun;
      discriminate.
  - destruct (PrimFloat.ltb ar 0); cbn [bind] in Hrun; [discriminate|].
    destruct (PrimFloat.eqb (img_size cfg) 0); [now left|].
    cbn [bind] in Hrun.
    destruct (PrimFloat.eqb (PrimFloat.sqrt ar) 0) eqn:Hzero;
      [right; now exists ar|].
    cbn [bind] in Hrun. discriminate.
Qed.

(** A negative aspect ratio behind a good one raises [ValueError]; a zero
    aspect ratio raises [ZeroDivisionError], at [scale / sqrt(ar)]. *)
Lemma make_anchors_error_causes_witness :
  (exists ar, In ar [1%float; (-4)%float] /\ PrimFloat.ltb ar 0 = true) /\
  (PrimFloat.eqb 544 0 = true \/
   exists ar, In ar [0%float] /\ PrimFloat.eqb (PrimFloat.sqrt ar) 0 = true).
Proof.
  split.
  - apply (proj1 (make_anchors_error_causes
                    {| aspect_ratios := [1%float; (-4)%float]; scales := [];
                       img_size := 544%float |} 1 1 24%float)).
    vm_compute. reflexivity.
  - apply (proj2 (make_anchors_error_causes
                    {| aspect_ratios := [0%float]; scales := [];
                       img_size := 544%float |} 1 1 24%float)).
    vm_compute. reflexivity.
Defined.

(** ** The anchors of the whole pyramid *)

Lemma nth_error_flat_map_at {A B : Type} (g : A -> list B) (xs : list A)
  (n q : nat) (x : A) :
  nth_error xs n = Some x -> q < length (g x) ->
  nth_error (flat_map g xs)
            (list_sum (map (fun y => length (g y)) (firstn n xs)) + q)
  = nth_error (g x) q.
Proof.
  revert n. induction xs as [|y xs IH]; intros n Hn Hq.
  - now destruct n.
  - destruct n as [|n]; simpl in *.
    + injection Hn as ->. now rewrite nth_error_app1.
    + rewrite nth_error_app2 by lia.
      replace (length (g y) + list_sum (map (fun y0 => length (g y0)) (firstn n xs))
               + q - length (g y))
        with (list_sum (map (fun y0 => length (g y0)) (firstn n xs)) + q) by lia.
      now apply IH.
Qed.

Lemma nth_error_enumerate_from {A : Type} (xs : list A) (s n : nat) :
  nth_error (combine (seq s (length xs)) xs) n
  = option_map (pair (s + n)) (nth_error xs n).
Proof.
  revert s n. induction xs as [|x xs IH]; intros s n; simpl.
  - now destruct n.
  - destruct n as [|n]; simpl; [now rewrite Nat.add_0_r|].
    rewrite IH. now rewrite Nat.add_succ_r.
Qed.

Lemma levels_offset (cfg : Config) (sizes : list nat) (s n : nat) :
  list_sum
    (map (fun p => length (grid_anchors cfg (snd p) (snd p)
                             (nth (fst p) (scales cfg) 0%float)))
         (firstn n (combine (seq s (length sizes)) sizes)))
  = length (aspect_ratios cfg)
    * list_sum (map (fun L => L * L) (firstn n sizes)).
Proof.
  revert s n. induction sizes as [|L sizes IH]; intros s n.
  - destruct n; simpl; lia.
  - destruct n as [|n]; [simpl; lia|].
    change (combine (seq s (length (L :: sizes))) (L :: sizes))
      with ((s, L) :: combine (seq (S s) (length sizes)) sizes).
    rewrite !firstn_cons, !map_cons.
    change (list_sum (?x :: ?l)) with (x + list_sum l).
    rewrite IH, grid_anchors_length. cbn [fst snd]. lia.
Qed.

Lemma levels_nth (cfg : Config) (sizes : list nat) (lvl L : nat) (s : float)
  (j i a : nat) (ar : float) :
  nth_error sizes lvl = Some L ->
  nth_error (scales cfg) lvl = Some s ->
  j < L -> i < L -> nth_error (aspect_ratios cfg) a = Some ar ->
  nth_error
    (flat_map (fun p => grid_anchors cfg (snd p) (snd p)
                          (nth (fst p) (scales cfg) 0%float))
              (enumerate sizes))
    (length (aspect_ratios cfg) * list_sum (map (fun L => L * L) (firstn lvl sizes))
     + ((j * L + i) * length (aspect_ratios cfg) + a))
  = Some (anchor_at cfg L L s j i ar).
Proof.
  intros HL Hs Hj Hi Har. unfold enumerate.
  rewrite <- (levels_offset cfg sizes 0 lvl).
  rewrite (@nth_error_flat_map_at _ _ _ _ lvl _ (lvl, L)).
  - cbn [fst snd]. rewrite (nth_error_nth _ _ 0%float Hs).
    now apply grid_anchors_nth.
  - rewrite nth_error_enumerate_from, HL. reflexivity.
  - cbn [fst snd]. rewrite grid_anchors_length.
    assert (a < length (aspect_ratios cfg)) by (apply nth_error_Some; congruence).
    apply cell_index_bound; [now apply cell_index_bound | assumption].
Qed.

(** X3. The anchors of pyramid level [lvl] follow those of the levels before
    it: with [k] aspect ratios and level sizes 68, 34, 17, 9, 5, the anchor
    of level [lvl], row [j], column [i] and ratio number [a] is anchor
    number [k * (sum of the squares of the earlier sizes) + (j * L + i) * k
    + a], and it is built with the scale [cfg['scales'][lvl]]. *)
Theorem pyramid_layout (cfg : Config) (d : RKNNDetection) :
  RKNNDetection_init cfg = Ok d ->
  let k := length (aspect_ratios cfg) in
  let sizes := [68; 34; 17; 9; 5] in
  exists boxes : list Anchor,
    rknn_anchors d = flatten_anchors boxes /\
    forall lvl L s j i a ar,
      nth_error sizes lvl = Some L ->
      nth_error (scales cfg) lvl = Some s ->
      j < L -> i < L -> nth_error (aspect_ratios cfg) a = Some ar ->
      nth_error boxes
        (k * list_sum (map (fun L => L * L) (firstn lvl sizes))
         + ((j * L + i) * k + a))
      = Some {| anchor_cx := (float_of_nat i + 0.5) / float_of_nat L;
                anchor_cy := (float_of_nat j + 0.5) / float_of_nat L;
                anchor_w := s * PrimFloat.sqrt ar / img_size cfg;
                anchor_h := s / PrimFloat.sqrt ar / img_size cfg |}%float.
Proof.
  intros Hinit k sizes. unfold RKNNDetection_init in Hinit.
  destruct (for_ _ _ _) as [r|] eqn:Hr; simpl in Hinit; [|discriminate].
  injection Hinit as <-. simpl rknn_anchors.
  apply levels_loop_grid in Hr. cbn [app] in Hr.
  eexists. split; [exact Hr|].
  intros lvl L s j i a ar HL Hs Hj Hi Har.
  change (map (fun stride => ceil_div 544 stride) strides) with sizes.
  unfold k.
  now rewrite (@levels_nth cfg sizes lvl L s j i a ar HL Hs Hj Hi Har).
Qed.

(** In the published configuration the first anchor of the second level
    is anchor number 3 * 68 * 68 = 13872 and uses the scale 47. *)
Lemma pyramid_layout_witness :
  exists d boxes,
    RKNNDetection_init cfg544 = Ok d /\
    rknn_anchors d = flatten_anchors boxes /\
    nth_error boxes (3 * (68 * 68 + 0) + ((0 * 34 + 0) * 3 + 0))
    = Some {| anchor_cx := (float_of_nat 0 + 0.5) / float_of_nat 34;
              anchor_cy := (float_of_nat 0 + 0.5) / float_of_nat 34;
              anchor_w := 47 * PrimFloat.sqrt 1 / 544;
              anchor_h := 47 / PrimFloat.sqrt 1 / 544 |}%float.
Proof.
  destruct (levels_loop_returns cfg544
              (enumerate (map (fun stride => ceil_div 544 stride) strides)) [])
    as [r Hr].
  - vm_compute. reflexivity.
  - intros p Hp. apply enumerate_index in Hp. rewrite length_map in Hp.
    simpl in *. lia.
  - assert (Hinit : RKNNDetection_init cfg544
                    = Ok {| rknn_input_size := 544; rknn_anchors := r |})
      by (unfold RKNNDetection_init; rewrite Hr; reflexivity).
    destruct (pyramid_layout cfg544 Hinit) as [boxes [Hflat Hnth]].
    exists {| rknn_input_size := 544; rknn_anchors := r |}, boxes.
    split; [exact Hinit|]. split; [exact Hflat|].
    exact (Hnth 1 34 47%float 0 0 0 1%float eq_refl eq_refl
             ltac:(lia) ltac:(lia) eq_refl).
Defined.

(** ** The scales read by the constructor *)

Lemma levels_loop_short (cfg : Config) (sizes : list nat) (start : nat)
  (s : list float) :
  config_ok cfg = true ->
  start <= length (scales cfg) < start + length sizes ->
  for_ (combine (seq start (length sizes)) sizes)
    (fun '(i, size) anchors =>
       scale <- getitem (scales cfg) i ;;
       more <- make_anchors cfg size size scale ;;
       Ok (anchors ++ more)) s
  = Raise IndexError.
Proof.
  intros Hok. revert start s.
  induction sizes as [|L sizes IH]; intros start s Hlen; simpl in Hlen; [lia|].
  cbn [length seq combine for_]. unfold getitem at 1.
  destruct (nth_error (scales cfg) start) as [scale|] eqn:Hscale.
  - cbn [bind].
    destruct (make_anchors_returns cfg L L scale Hok) as [more ->].
    cbn [bind]. apply IH.
    assert (start < length (scales cfg)) by (apply nth_error_Some; congruence).
    lia.
  - reflexivity.
Qed.

(** X4. With a configuration whose operands raise nothing but with fewer than
    five scales, the constructor raises [IndexError]. *)
Theorem init_needs_five_scales (cfg : Config) :
  config_ok cfg = true -> length (scales cfg) < 5 ->
  RKNNDetection_init cfg = Raise IndexError.
Proof.
  intros Hok Hlen. unfold RKNNDetection_init, enumerate.
  rewrite levels_loop_short; [reflexivity | exact Hok |].
  rewrite length_map. simpl. lia.
Qed.

Lemma init_needs_five_scales_witness :
  RKNNDetection_init
    {| aspect_ratios := [1%float]; scales := [24%float; 48%float];
       img_size := 544%float |}
  = Raise IndexError.
Proof.
  apply init_needs_five_scales; [vm_compute; reflexivity | simpl; lia].
Defined.

Lemma make_anchors_reads (cfg1 cfg2 : Config) (conv_h conv_w : nat)
  (scale : float) :
  aspect_ratios cfg1 = aspect_ratios cfg2 -> img_size cfg1 = img_size cfg2 ->
  make_anchors cfg1 conv_h conv_w scale = make_anchors cfg2 conv_h conv_w scale.
Proof.
  destruct cfg1, cfg2. simpl. intros -> ->. reflexivity.
Qed.

Lemma nth_error_firstn_lt {A : Type} (xs : list A) (n i : nat) :
  i < n -> nth_error (firstn n xs) i = nth_error xs i.
Proof.
  revert n i. induction xs as [|x xs IH]; intros n i Hi.
  - now rewrite firstn_nil.
  - destruct n as [|n]; [lia|]. destruct i as [|i]; simpl; [reflexivity|].
    apply IH. lia.
Qed.

(** X5. The constructor reads the aspect ratios, the image size and the first
    five scales only: two configurations that agree on them give the same
    anchors or the same exception. *)
Theorem init_reads_five_scales (cfg1 cfg2 : Config) :
  aspect_ratios cfg1 = aspect_ratios cfg2 ->
  img_size cfg1 = img_size cfg2 ->
  firstn 5 (scales cfg1) = firstn 5 (scales cfg2) ->
  RKNNDetection_init cfg1 = RKNNDetection_init cfg2.
Proof.
  intros Hars Himg Hscales. unfold RKNNDetection_init. f_equal.
  apply for_ext. intros [i size] t Hin.
  apply enumerate_index in Hin. rewrite length_map in Hin. simpl in Hin.
  assert (Hget : getitem (scales cfg1) i = getitem (scales cfg2) i).
  { unfold getitem.
    rewrite <- (nth_error_firstn_lt (scales cfg1) Hin),
            <- (nth_error_firstn_lt (scales cfg2) Hin), Hscales.
    reflexivity. }
  rewrite Hget. destruct (getitem (scales cfg2) i) as [scale|]; [|reflexivity].
  cbn [bind]. now rewrite (make_anchors_reads cfg1 cfg2 size size scale Hars Himg).
Qed.

Lemma init_reads_five_scales_witness :
  RKNNDetection_init cfg544
  = RKNNDetection_init
      {| aspect_ratios := [1%float; 0.5%float; 2%float];
         scales := [23%float; 47%float; 94%float; 189%float; 379%float;
                    768%float];
         img_size := 544%float |}.
Proof.
  apply init_reads_five_scales; reflexivity.
Defined.

(** ** Result preparation: the shape of the result *)

Lemma combine_truncate {A B : Type} (xs : list A) (ys : list B) :
  combine xs ys
  = combine (firstn (Nat.min (length xs) (length ys)) xs)
            (firstn (Nat.min (length xs) (length ys)) ys).
Proof.
  revert ys. induction xs as [|x xs IH]; intros [|y ys]; simpl; try reflexivity.
  now rewrite <- IH.
Qed.

(** X6. Rows without a mask and masks without a row are ignored, whatever
    their score: only the first [min(len(rows), len(masks))] of each are
    read. *)
Theorem prep_display_reads_pairs (self : ONNXDetection) (rows : list Row)
  (masks : list Mask) :
  let n := Nat.min (length rows) (length masks) in
  prep_display self rows masks
  = prep_display self (firstn n rows) (firstn n masks).
Proof.
  intros n. unfold prep_display, zip. now rewrite (combine_truncate rows masks).
Qed.

(** X7. The four sequences are parallel: they have one length, the number of
    surviving candidates, which is at most the number of rows and at most
    the number of masks. *)
Theorem prep_display_parallel (self : ONNXDetection) (rows : list Row)
  (masks : list Mask) (bboxes : list BBox) (scores : list Q)
  (class_ids : list Z) (out_masks : list ByteMask) :
  prep_display self rows masks = (bboxes, scores, class_ids, out_masks) ->
  length bboxes = length (survivors self rows masks) /\
  length scores = length bboxes /\
  length class_ids = length bboxes /\
  length out_masks = length bboxes /\
  length bboxes <= Nat.min (length rows) (length masks).
Proof.
  intros Hrun. rewrite prep_display_survivors in Hrun.
  unfold display_of in Hrun. injection Hrun as <- <- <- <-.
  rewrite !length_map. repeat split; try reflexivity.
  unfold survivors, zip.
  rewrite <- (length_combine rows masks). apply filter_length_le.
Qed.

Lemma prep_display_parallel_witness :
  length [9 # 10]%Q = length [row_bbox row_a] /\
  length [row_bbox row_a] <= Nat.min (length [row_a; row_b]) (length [mask_a; mask_a]).
Proof.
  destruct (@prep_display_parallel ONNXDetection_init [row_a; row_b]
              [mask_a; mask_a] [row_bbox row_a] [9 # 10]%Q [2%Z]
              [cropped_mask 2 (row_bbox row_a) mask_a])
    as [_ [Hs [_ [_ Hle]]]].
  - vm_compute. reflexivity.
  - split; [exact Hs | exact Hle].
Defined.

Lemma survivors_app (self : ONNXDetection) (rows1 rows2 : list Row)
  (masks1 masks2 : list Mask) :
  length rows1 = length masks1 ->
  survivors self (rows1 ++ rows2) (masks1 ++ masks2)
  = survivors self rows1 masks1 ++ survivors self rows2 masks2.
Proof.
  intros Hlen. unfold survivors, zip.
  rewrite <- filter_app. f_equal.
  revert masks1 Hlen. induction rows1 as [|r rows1 IH]; intros [|m masks1] Hlen;
    simpl in *; try discriminate; [reflexivity|].
  f_equal. apply IH. lia.
Qed.

(** X8. Preparing two batches one after the other is preparing their
    concatenation, provided the first batch has as many rows as masks. *)
Theorem prep_display_app (self : ONNXDetection) (rows1 rows2 : list Row)
  (masks1 masks2 : list Mask) :
  length rows1 = length masks1 ->
  prep_display self (rows1 ++ rows2) (masks1 ++ masks2)
  = (let '(b1, s1, c1, m1) := prep_display self rows1 masks1 in
     let '(b2, s2, c2, m2) := prep_display self rows2 masks2 in
     (b1 ++ b2, s1 ++ s2, c1 ++ c2, m1 ++ m2)).
Proof.
  intros Hlen. rewrite !prep_display_survivors, (survivors_app _ _ _ _ _ Hlen).
  unfold display_of. now rewrite !map_app.
Qed.

Lemma prep_display_app_witness :
  prep_display ONNXDetection_init ([row_b] ++ [row_a]) ([mask_c] ++ [mask_a])
  = (let '(b1, s1, c1, m1) := prep_display ONNXDetection_init [row_b] [mask_c] in
     let '(b2, s2, c2, m2) := prep_display ONNXDetection_init [row_a] [mask_a] in
     (b1 ++ b2, s1 ++ s2, c1 ++ c2, m1 ++ m2)).
Proof.
  apply prep_display_app. reflexivity.
Defined.

(** ** Result preparation: the cropped masks *)

Lemma mapi_length {A B : Type} (f : nat -> A -> B) (xs : list A) :
  length (mapi f xs) = length xs.
Proof.
  unfold mapi, enumerate.
  rewrite length_map, length_combine, length_seq. apply Nat.min_id.
Qed.

Lemma Forall_mapi {A B : Type} (P : A -> Prop) (R : B -> Prop)
  (f : nat -> A -> B) (xs : list A) :
  (forall i x, P x -> R (f i x)) -> Forall P xs -> Forall R (mapi f xs).
Proof.
  intros Hf HP. unfold mapi, enumerate. generalize 0.
  induction HP as [|x xs Hx _ IH]; intros s; simpl; constructor; auto.
Qed.

Lemma map_length_mapi_rows {A B : Type} (g : nat -> nat -> A -> B)
  (m : list (list A)) :
  map (@length B) (mapi (fun r row => mapi (g r) row) m) = map (@length A) m.
Proof.
  unfold mapi at 1. unfold enumerate. generalize 0.
  induction m as [|row m IH]; intros s; simpl; [reflexivity|].
  now rewrite mapi_length, IH.
Qed.

Lemma cropped_mask_rows (class_id : Z) (bbox : BBox) (mask : Mask) :
  map (@length Z) (cropped_mask class_id bbox mask) = map (@length Q) mask.
Proof.
  unfold cropped_mask, assign_region. rewrite map_length_mapi_rows.
  unfold where_tag. rewrite map_map. apply map_ext. intros row.
  apply length_map.
Qed.

Lemma cropped_mask_bytes (class_id : Z) (bbox : BBox) (mask : Mask) :
  Forall (Forall (fun v => (0 <= v < 256)%Z)) (cropped_mask class_id bbox mask).
Proof.
  unfold cropped_mask, assign_region.
  apply Forall_mapi with (P := Forall (fun v => (0 <= v < 256)%Z)).
  - intros r row Hrow.
    apply Forall_mapi with (P := fun v => (0 <= v < 256)%Z); [|exact Hrow].
    intros c v Hv. destruct (_ && _); [exact Hv | lia].
  - unfold where_tag. apply Forall_forall. intros row Hrow.
    apply in_map_iff in Hrow as [row' [<- _]].
    apply Forall_forall. intros v Hv.
    apply in_map_iff in Hv as [q [<- _]].
    unfold uint8. apply Z.mod_pos_bound. lia.
Qed.

(** X9. Every mask that [prep_display] returns has the shape of the predicted
    mask it was made from, row by row, and holds bytes only. *)
Theorem prep_display_mask_shape (self : ONNXDetection) (rows : list Row)
  (masks : list Mask) (bboxes : list BBox) (scores : list Q)
  (class_ids : list Z) (out_masks : list ByteMask)
  (n : nat) (row : Row) (mask : Mask) :
  prep_display self rows masks = (bboxes, scores, class_ids, out_masks) ->
  nth_error (survivors self rows masks) n = Some (row, mask) ->
  exists cropped : ByteMask,
    nth_error out_masks n = Some cropped /\
    shape cropped = shape mask /\
    map (@length Z) cropped = map (@length Q) mask /\
    Forall (Forall (fun v => (0 <= v < 256)%Z)) cropped.
Proof.
  intros Hrun Hn. rewrite prep_display_survivors in Hrun.
  unfold display_of in Hrun. rewrite !map_map in Hrun.
  injection Hrun as _ _ _ <-.
  rewrite nth_error_map, Hn. cbn [option_map prepared fst snd].
  eexists. split; [reflexivity|].
  pose proof (cropped_mask_rows (py_int (row_class row)) (row_bbox row) mask)
    as Hrows.
  split; [|split; [exact Hrows | apply cropped_mask_bytes]].
  unfold shape. f_equal.
  - apply (f_equal (@length nat)) in Hrows. now rewrite !length_map in Hrows.
  - destruct (cropped_mask _ _ mask) as [|r0 m0], mask as [|q0 mask0];
      simpl in *; congruence.
Qed.

Lemma prep_display_mask_shape_witness :
  exists cropped : ByteMask,
    nth_error [cropped_mask 2 (row_bbox row_a) mask_a] 0 = Some cropped /\
    shape cropped = shape mask_a.
Proof.
  destruct (@prep_display_mask_shape ONNXDetection_init [row_a; row_b]
              [mask_a; mask_a] [row_bbox row_a] [9 # 10]%Q [2%Z]
              [cropped_mask 2 (row_bbox row_a) mask_a] 0 row_a mask_a)
    as [cropped [Hc [Hs _]]].
  - vm_compute. reflexivity.
  - vm_compute. reflexivity.
  - exists cropped. split; [exact Hc | exact Hs].
Defined.

(** X10. A box that maps to no pixel (its right edge does not lie right of its
    left edge on the pixel grid, or its bottom edge not below its top edge)
    gives an all-zero mask, and the detection is reported all the same. *)
Theorem prep_display_empty_box (self : ONNXDetection) (rows : list Row)
  (masks : list Mask) (bboxes : list BBox) (scores : list Q)
  (class_ids : list Z) (out_masks : list ByteMask)
  (n : nat) (row : Row) (mask : Mask) :
  prep_display self rows masks = (bboxes, scores, class_ids, out_masks) ->
  nth_error (survivors self rows masks) n = Some (row, mask) ->
  let h := Q_of_nat (fst (shape mask)) in
  let w := Q_of_nat (snd (shape mask)) in
  (Z.max 0 (Qfloor (row_x2 row * w)) <= Z.max 0 (Qfloor (row_x1 row * w)) \/
   Z.max 0 (Qfloor (row_y2 row * h)) <= Z.max 0 (Qfloor (row_y1 row * h)))%Z ->
  nth_error scores n = Some (row_score row) /\
  exists cropped : ByteMask,
    nth_error out_masks n = Some cropped /\
    forall r col, pixel 0%Z cropped r col = 0%Z.
Proof.
  intros Hrun Hn h w Hempty. rewrite prep_display_survivors in Hrun.
  unfold display_of in Hrun. rewrite !map_map in Hrun.
  injection Hrun as _ <- _ <-.
  rewrite !nth_error_map, Hn. cbn [option_map prepared fst snd].
  split; [reflexivity|]. eexists. split; [reflexivity|].
  intros r col. rewrite pixel_cropped_mask. cbn [row_bbox bbox_x1 bbox_x2 bbox_y1 bbox_y2].
  fold h w.
  destruct (_ && _)%bool eqn:Hin; [|reflexivity].
  rewrite !andb_true_iff, !Z.leb_le, !Z.ltb_lt in Hin. lia.
Qed.

Lemma prep_display_empty_box_witness :
  prep_display ONNXDetection_init [row_thin] [mask_a]
  = ([row_bbox row_thin], [9 # 10]%Q, [2%Z],
     [[[0; 0; 0; 0]; [0; 0; 0; 0]; [0; 0; 0; 0]; [0; 0; 0; 0]]%Z]) /\
  exists cropped : ByteMask,
    nth_error [[[0; 0; 0; 0]; [0; 0; 0; 0]; [0; 0; 0; 0]; [0; 0; 0; 0]]%Z] 0
    = Some cropped /\
    forall r col, pixel 0%Z cropped r col = 0%Z.
Proof.
  assert (Hrun : prep_display ONNXDetection_init [row_thin] [mask_a]
    = ([row_bbox row_thin], [9 # 10]%Q, [2%Z],
       [[[0; 0; 0; 0]; [0; 0; 0; 0]; [0; 0; 0; 0]; [0; 0; 0; 0]]%Z]))
    by (vm_compute; reflexivity).
  split; [exact Hrun|].
  destruct (@prep_display_empty_box _ _ _ _ _ _ _ 0 row_thin mask_a Hrun)
    as [_ H].
  - vm_compute. reflexivity.
  - left. vm_compute. discriminate.
  - exact H.
Defined.

(** ** Compositing: the range of the palette index *)

(** A loop that appends one value per element collects the values. *)
Lemma for_collect {A B : Type} (body : A -> list B -> result (list B))
  (h : A -> B) (xs : list A) :
  (forall x acc, In x xs -> body x acc = Ok (acc ++ [h x])) ->
  forall s, for_ xs body s = Ok (s ++ map h xs).
Proof.
  induction xs as [|x xs IH]; intros Hbody s; simpl.
  - now rewrite app_nil_r.
  - rewrite Hbody by now left. cbn [bind].
    rewrite IH by (intros y acc Hy; apply Hbody; now right).
    now rewrite <- app_assoc.
Qed.

Lemma getitem_Z_inside {A : Type} (xs : list A) (i : Z) :
  (- Z.of_nat (length xs) <= i < Z.of_nat (length xs))%Z ->
  exists a, getitem_Z xs i = Ok a.
Proof.
  intros Hi. unfold getitem_Z, getitem.
  destruct ((0 <=? i) && (i <? Z.of_nat (length xs)))%Z eqn:Hpos.
  - apply andb_true_iff in Hpos as [H0 H1].
    apply Z.leb_le in H0. apply Z.ltb_lt in H1.
    destruct (nth_error xs (Z.to_nat i)) as [a|] eqn:Ha; [now exists a|].
    apply nth_error_None in Ha. lia.
  - assert (Hneg : ((- Z.of_nat (length xs) <=? i) && (i <? 0))%Z = true).
    { apply andb_false_iff in Hpos.
      rewrite Z.leb_gt, Z.ltb_ge in Hpos.
      apply andb_true_iff. rewrite Z.leb_le, Z.ltb_lt. lia. }
    rewrite Hneg.
    destruct (nth_error xs (Z.to_nat (Z.of_nat (length xs) + i))) as [a|] eqn:Ha;
      [now exists a|].
    apply nth_error_None in Ha. lia.
Qed.

Lemma getitem_Z_nonneg {A : Type} (xs : list A) (i : Z) (d : A) :
  (0 <= i < Z.of_nat (length xs))%Z ->
  getitem_Z xs i = Ok (nth (Z.to_nat i) xs d).
Proof.
  intros Hi. unfold getitem_Z, getitem.
  replace ((0 <=? i) && (i <? Z.of_nat (length xs)))%Z with true
    by (symmetry; apply andb_true_iff; rewrite Z.leb_le, Z.ltb_lt; lia).
  destruct (nth_error xs (Z.to_nat i)) as [a|] eqn:Ha.
  - now rewrite (nth_error_nth _ _ d Ha).
  - apply nth_error_None in Ha. lia.
Qed.

Lemma getitem_Z_outside {A : Type} (xs : list A) (i : Z) :
  (i < - Z.of_nat (length xs) \/ Z.of_nat (length xs) <= i)%Z ->
  getitem_Z xs i = Raise IndexError.
Proof.
  intros Hi. unfold getitem_Z.
  replace ((0 <=? i) && (i <? Z.of_nat (length xs)))%Z with false
    by (symmetry; apply andb_false_iff; rewrite Z.leb_gt, Z.ltb_ge; lia).
  replace ((- Z.of_nat (length xs) <=? i) && (i <? 0))%Z with false
    by (symmetry; apply andb_false_iff; rewrite Z.leb_gt, Z.ltb_ge; lia).
  reflexivity.
Qed.

Lemma masks_semantic_entries (mask_p : Masks) (ids_p : list Z)
  (idx : list (list Z)) :
  masks_semantic mask_p ids_p = Ok idx ->
  Forall (Forall (fun i => exists c, getitem_Z COLORS i = Ok c)) idx.
Proof.
  unfold masks_semantic. intros Hrun.
  destruct (broadcast_mul (planes mask_p) ids_p) as [stacked|]; [|discriminate].
  cbn [bind] in Hrun. injection Hrun as <-.
  apply Forall_forall. intros row Hrow.
  apply in_map_iff in Hrow as [row' [<- _]].
  apply Forall_forall. intros i Hi.
  apply in_map_iff in Hi as [v [<- _]].
  apply getitem_Z_inside.
  change (Z.of_nat (length COCO_CLASSES) - 1)%Z with 79%Z.
  change (Z.of_nat (length COLORS)) with 81%Z.
  assert (0 <= v mod 79 < 79)%Z by (apply Z.mod_pos_bound; lia). lia.
Qed.

(** X11. Whatever the masks and the ids, the index image has the frame's
    [masks_h] rows of [masks_w] entries and every palette index lies in
    [0, 78]: the last two colours of the 81-entry palette are never used
    for a mask, and looking an index up cannot fail. *)
Theorem masks_semantic_range (mask_p : Masks) (ids_p : list Z)
  (idx : list (list Z)) :
  masks_semantic mask_p ids_p = Ok idx ->
  length idx = masks_h mask_p /\
  Forall (fun row => length row = masks_w mask_p /\
                     Forall (fun i => (0 <= i <= 78)%Z /\
                                      exists c, getitem_Z COLORS i = Ok c)
                            row)
         idx.
Proof.
  unfold masks_semantic. intros Hrun.
  destruct (broadcast_mul (planes mask_p) ids_p) as [stacked|]; [|discriminate].
  cbn [bind] in Hrun. injection Hrun as <-.
  unfold sum_axis0, range. rewrite !length_map, length_seq.
  split; [reflexivity|].
  apply Forall_forall. intros row Hrow.
  apply in_map_iff in Hrow as [row' [<- Hrow']].
  apply in_map_iff in Hrow' as [r [<- _]].
  rewrite !length_map, length_seq. split; [reflexivity|].
  apply Forall_forall. intros i Hi.
  apply in_map_iff in Hi as [v [<- _]].
  change (Z.of_nat (length COCO_CLASSES) - 1)%Z with 79%Z.
  assert (0 <= v mod 79 < 79)%Z by (apply Z.mod_pos_bound; lia).
  split; [lia|]. apply getitem_Z_inside.
  change (Z.of_nat (length COLORS)) with 81%Z. lia.
Qed.

Lemma masks_semantic_range_witness :
  exists idx, masks_semantic two_masks [77; 77]%Z = Ok idx /\
              length idx = 2.
Proof.
  exists [[77; 78]; [78; 78]]%Z.
  assert (H : masks_semantic two_masks [77; 77]%Z = Ok [[77; 78]; [78; 78]]%Z)
    by (vm_compute; reflexivity).
  split; [exact H|].
  exact (proj1 (masks_semantic_range two_masks [77; 77]%Z H)).
Defined.

(** ** Compositing: pixels covered by no instance or by one *)

Lemma Zsum_zero (l : list Z) : Forall (fun v => v = 0%Z) l -> Zsum l = 0%Z.
Proof. induction 1 as [|v l Hv _ IH]; simpl; [reflexivity | lia]. Qed.

Lemma Zsum_single (l : list Z) (k : nat) (v : Z) :
  nth_error l k = Some v ->
  (forall k' v', k' <> k -> nth_error l k' = Some v' -> v' = 0%Z) ->
  Zsum l = v.
Proof.
  revert k. induction l as [|x l IH]; intros k Hk Hrest.
  - now destruct k.
  - destruct k as [|k]; simpl in *.
    + injection Hk as ->.
      rewrite Zsum_zero; [lia|]. apply Forall_forall. intros y Hy.
      apply In_nth_error in Hy as [n Hn].
      apply (Hrest (S n) y); [lia | exact Hn].
    + rewrite (IH k Hk).
      * rewrite (Hrest 0 x); [lia | lia | reflexivity].
      * intros k' v' Hk' Hv'. apply (Hrest (S k') v'); [lia | exact Hv'].
Qed.

Lemma nth_error_combine {A B : Type} (xs : list A) (ys : list B) (n : nat) :
  nth_error (combine xs ys) n
  = match nth_error xs n, nth_error ys n with
    | Some x, Some y => Some (x, y)
    | _, _ => None
    end.
Proof.
  revert ys n. induction xs as [|x xs IH]; intros [|y ys] [|n]; simpl;
    try reflexivity.
  - now destruct (nth_error xs n).
  - apply IH.
Qed.

(** X12. With one mask per id: a pixel inside the frame that no mask covers
    gets palette index 0; a pixel covered by the mask of one instance only,
    of class [c], gets index [(c + 1) mod 79].  That is [c + 1] for the
    classes 0 to 77, and 0, the background colour, for class 78. *)
Theorem palette_index_of_one_instance (mask_p : Masks) (ids_p : list Z)
  (r col : nat) :
  length (planes mask_p) = length ids_p ->
  r < masks_h mask_p -> col < masks_w mask_p ->
  exists idx,
    masks_semantic mask_p ids_p = Ok idx /\
    ((forall m, In m (planes mask_p) -> (pixel 0 m r col == 0)%Q) ->
     pixel 0%Z idx r col = 0%Z) /\
    (forall k m c,
       nth_error (planes mask_p) k = Some m ->
       nth_error ids_p k = Some c ->
       (pixel 0 m r col == 1)%Q ->
       (forall k' m', k' <> k -> nth_error (planes mask_p) k' = Some m' ->
                      (pixel 0 m' r col == 0)%Q) ->
       pixel 0%Z idx r col = ((c + 1) mod 79)%Z /\
       ((0 <= c <= 77)%Z -> pixel 0%Z idx r col = (c + 1)%Z) /\
       (c = 78%Z -> pixel 0%Z idx r col = 0%Z)).
Proof.
  intros Hlen Hr Hc.
  destruct (masks_semantic_pixel mask_p ids_p Hlen) as [idx [Hrun Hpix]].
  exists idx. split; [exact Hrun|].
  specialize (Hpix r col Hr Hc).
  change (Z.of_nat (length COCO_CLASSES) - 1)%Z with 79%Z in Hpix.
  split.
  - intros Hnone. rewrite Hpix, Zsum_zero; [reflexivity|].
    apply Forall_forall. intros v Hv.
    apply in_map_iff in Hv as [[m i] [<- Hin]]. cbn [fst snd].
    apply in_combine_l in Hin. apply py_int_inject.
    rewrite (Hnone m Hin). reflexivity.
  - intros k m c Hm Hid Hone Hothers. unfold Mask in *.
    assert (Hidx : pixel 0%Z idx r col = ((c + 1) mod 79)%Z).
    { rewrite Hpix. f_equal. apply Zsum_single with (k := k).
      - rewrite nth_error_map, nth_error_combine, Hm, Hid. cbn [option_map fst snd].
        f_equal. apply py_int_inject. rewrite Hone. apply Qmult_1_l.
      - intros k' v' Hk' Hv'.
        rewrite nth_error_map, nth_error_combine in Hv'.
        destruct (@nth_error (list (list Q)) (planes mask_p) k') as [m'|] eqn:Hm';
          [|discriminate Hv'].
        destruct (nth_error ids_p k') as [c'|]; [|discriminate Hv'].
        cbn [option_map fst snd] in Hv'. injection Hv' as <-.
        apply py_int_inject. rewrite (Hothers k' m' Hk' Hm'). reflexivity. }
    split; [exact Hidx|]. split.
    + intros Hsmall. rewrite Hidx. apply Z.mod_small. lia.
    + intros ->. rewrite Hidx. reflexivity.
Qed.

(** A single instance of class 78 on a 1 x 1 frame is drawn with index 0. *)
Lemma palette_index_of_one_instance_witness :
  exists idx,
    masks_semantic {| masks_h := 1; masks_w := 1; planes := [[[1]]]%Q |} [78%Z]
    = Ok idx /\
    pixel 0%Z idx 0 0 = 0%Z.
Proof.
  destruct (@palette_index_of_one_instance
              {| masks_h := 1; masks_w := 1; planes := [[[1]]]%Q |} [78%Z] 0 0
              eq_refl ltac:(simpl; lia) ltac:(simpl; lia))
    as [idx [Hrun [_ Hone]]].
  exists idx. split; [exact Hrun|].
  destruct (Hone 0 [[1]]%Q 78%Z eq_refl eq_refl) as [_ [_ H78]].
  - reflexivity.
  - intros [|k'] m' Hk' Hm'; [congruence|].
    destruct k'; discriminate Hm'.
  - now apply H78.
Defined.

(** ** Rendering of the RKNN variant: edges and errors *)

(** A loop none of whose steps raises returns, whatever its state is. *)
Lemma for_total {A S : Type} (body : A -> S -> result S) (xs : list A) :
  (forall x t, In x xs -> exists r, body x t = Ok r) ->
  forall s, exists r, for_ xs body s = Ok r.
Proof.
  induction xs as [|x xs IH]; intros Hstep s; simpl.
  - now exists s.
  - destruct (Hstep x s (or_introl eq_refl)) as [s' ->]. simpl.
    apply IH. intros y t Hy. apply Hstep. now right.
Qed.

Lemma broadcast_mul_mismatch (ms : list Mask) (ids_p : list Z) :
  length ms <> length ids_p -> length ms <> 1 -> length ids_p <> 1 ->
  broadcast_mul ms ids_p = Raise ValueError.
Proof.
  intros Hne Hms Hids. unfold broadcast_mul. rewrite length_map.
  destruct (Nat.eqb_spec (length ms) (length ids_p)) as [Heq|_]; [contradiction|].
  destruct ids_p as [|i [|i' ids]], ms as [|m [|m' ms]]; simpl in *;
    try reflexivity; try lia.
Qed.

Lemma map_const_seq {A : Type} (x : A) (s n : nat) :
  map (fun _ => x) (seq s n) = repeat x n.
Proof.
  revert s. induction n as [|n IH]; intros s; simpl; [reflexivity|].
  now rewrite IH.
Qed.

Lemma palette_lookup_black (h w : nat) :
  for_ (map (map (fun v => (v mod (Z.of_nat (length COCO_CLASSES) - 1))%Z))
            (sum_axis0 h w []))
    (fun row acc =>
       colors <- for_ row
                   (fun i acc => c <- getitem_Z COLORS i ;;
                                 Ok (acc ++ [map uint8 c]))
                   [] ;;
       Ok (acc ++ [colors]))
    []
  = Ok (black_image h w).
Proof.
  rewrite for_collect with (h := fun _ => repeat [0; 0; 0]%Z w).
  - cbn [app]. unfold black_image, sum_axis0, range.
    now rewrite !map_map, map_const_seq.
  - intros row acc Hrow.
    apply in_map_iff in Hrow as [row' [<- Hrow']].
    unfold sum_axis0 in Hrow'. apply in_map_iff in Hrow' as [r [<- _]].
    rewrite map_map. cbn [map fold_left].
    change (0 mod (Z.of_nat (length COCO_CLASSES) - 1))%Z with 0%Z.
    rewrite for_collect with (h := fun _ => [0; 0; 0]%Z).
    + cbn [app bind]. unfold range. now rewrite map_map, map_const_seq.
    + intros i acc' Hi. apply in_map_iff in Hi as [c [<- _]]. reflexivity.
Qed.

Lemma getitem_Z_raises {A : Type} (xs : list A) (i : Z) (e : exn) :
  getitem_Z xs i = Raise e -> e = IndexError.
Proof.
  unfold getitem_Z, getitem.
  destruct (_ && _)%bool; [destruct (nth_error _ _); congruence|].
  destruct (_ && _)%bool; [destruct (nth_error _ _); congruence|].
  congruence.
Qed.

(** Replace the first loop of the goal by the state it returns, leaving
    the proof that no step of it raises. *)
Ltac loop_returns :=
  match goal with
  | |- context [for_ ?xs ?body ?s] =>
      let r := fresh "r" in
      let Hr := fresh "Hr" in
      assert (Hr : exists r, for_ xs body s = Ok r);
      [ apply for_total
      | destruct Hr as [r Hr]; rewrite Hr; cbn [Py.bind] ]
  end.

Section RknnRendering.

Variable Image : Type.
Variable addWeighted : list (list Color) -> Q -> Image -> Q -> Image.
Variable rectangle : Image -> Z * Z -> Z * Z -> Color -> Z -> Image.
Variable getTextSize : string -> Q -> Z -> Z * Z.
Variable putText : Image -> string -> Z * Z -> Q -> Color -> Z -> Image.
Variable format_label : string -> Q -> string.

(** X13. When the number of masks and the number of ids differ and neither is
    one, [rknn_draw] raises [ValueError] (the product of the two arrays
    cannot be broadcast). *)
Theorem rknn_draw_shape_mismatch (img_origin : Image) (ids_p : list Z)
  (class_p : list Q) (box_p : list (Z * Z * Z * Z)) (mask_p : Masks) :
  length (planes mask_p) <> length ids_p ->
  length (planes mask_p) <> 1 -> length ids_p <> 1 ->
  rknn_draw addWeighted rectangle getTextSize putText format_label
            img_origin (Some ids_p) class_p box_p mask_p
  = Raise ValueError.
Proof.
  intros Hne Hms Hids. unfold rknn_draw, masks_semantic.
  now rewrite (broadcast_mul_mismatch _ _ Hne Hms Hids).
Qed.

(** X14. An empty id array is not [None]: with no detection and no mask the
    frame is not returned as it is but blended, at weight 0.6, with an
    all-black overlay at weight 0.4. *)
Theorem rknn_draw_no_detection (img_origin : Image) (class_p : list Q)
  (box_p : list (Z * Z * Z * Z)) (h w : nat) :
  rknn_draw addWeighted rectangle getTextSize putText format_label
            img_origin (Some [])
            class_p box_p {| masks_h := h; masks_w := w; planes := [] |}
  = Ok (addWeighted (black_image h w) (4 # 10) img_origin (6 # 10)).
Proof.
  unfold rknn_draw, masks_semantic.
  cbn [planes masks_h masks_w broadcast_mul map length Nat.eqb combine bind].
  rewrite palette_lookup_black. reflexivity.
Qed.

(** X15. [rknn_draw] returns a frame whenever there is one mask, one box and
    one score per id and every id lies in [-80, 79], the indices that both
    the label table and, shifted by one, the palette accept. *)
Theorem rknn_draw_returns (img_origin : Image) (ids_p : list Z)
  (class_p : list Q) (box_p : list (Z * Z * Z * Z)) (mask_p : Masks) :
  length (planes mask_p) = length ids_p ->
  length ids_p <= length box_p ->
  length ids_p <= length class_p ->
  Forall (fun id => (-80 <= id <= 79)%Z) ids_p ->
  exists img,
    rknn_draw addWeighted rectangle getTextSize putText format_label
              img_origin (Some ids_p) class_p box_p mask_p
    = Ok img.
Proof.
  intros Hlen Hbox Hscore Hids. unfold rknn_draw.
  destruct (masks_semantic_pixel mask_p ids_p Hlen) as [idx [Hrun _]].
  rewrite Hrun. cbn [bind].
  pose proof (masks_semantic_entries mask_p ids_p Hrun) as Hrange.
  loop_returns.
  { intros row t Hrow. rewrite Forall_forall in Hrange.
    pose proof (Hrange row Hrow) as Hrow_ok. rewrite Forall_forall in Hrow_ok.
    loop_returns.
    - intros i u Hi. destruct (Hrow_ok i Hi) as [c ->].
      cbn [bind]. eexists; reflexivity.
    - eexists; reflexivity. } apply for_total.
  intros i img Hi. apply in_rev in Hi. apply in_seq in Hi.
  assert (Hi' : i < length ids_p) by lia.
  unfold getitem at 1.
  destruct (nth_error box_p i) as [[[[x1 y1] x2] y2]|] eqn:Hb;
    [|apply nth_error_None in Hb; lia].
  cbn [bind]. unfold getitem at 1.
  destruct (nth_error ids_p i) as [id|] eqn:Hid;
    [|apply nth_error_None in Hid; lia].
  cbn [bind].
  assert (Hrng : (-80 <= id <= 79)%Z).
  { rewrite Forall_forall in Hids. apply Hids. eapply nth_error_In; eauto. }
  destruct (@getitem_Z_inside _ COLORS (id + 1)) as [color ->].
  { change (Z.of_nat (length COLORS)) with 81%Z. lia. }
  cbn [bind].
  destruct (@getitem_Z_inside _ COCO_CLASSES id) as [class_name ->].
  { change (Z.of_nat (length COCO_CLASSES)) with 80%Z. lia. }
  cbn [bind]. unfold getitem.
  destruct (nth_error class_p i) as [score|] eqn:Hs;
    [|apply nth_error_None in Hs; lia].
  cbn [bind].
  destruct (getTextSize (format_label class_name score) (6 # 10) 1%Z).
  eexists; reflexivity.
Qed.

(** X16. An id outside [-80, 79] has no label: [rknn_draw] raises
    [IndexError] as soon as one id is such, the masks being aligned with
    the ids. *)
Theorem rknn_draw_bad_id (img_origin : Image) (ids_p : list Z)
  (class_p : list Q) (box_p : list (Z * Z * Z * Z)) (mask_p : Masks) :
  length (planes mask_p) = length ids_p ->
  Exists (fun id => (id < -80 \/ 79 < id)%Z) ids_p ->
  rknn_draw addWeighted rectangle getTextSize putText format_label
            img_origin (Some ids_p) class_p box_p mask_p
  = Raise IndexError.
Proof.
  intros Hlen Hbad. unfold rknn_draw.
  destruct (masks_semantic_pixel mask_p ids_p Hlen) as [idx [Hrun _]].
  rewrite Hrun. cbn [bind].
  pose proof (masks_semantic_entries mask_p ids_p Hrun) as Hrange.
  loop_returns.
  { intros row t Hrow. rewrite Forall_forall in Hrange.
    pose proof (Hrange row Hrow) as Hrow_ok. rewrite Forall_forall in Hrow_ok.
    loop_returns.
    - intros i u Hi. destruct (Hrow_ok i Hi) as [c ->].
      cbn [bind]. eexists; reflexivity.
    - eexists; reflexivity. }
  apply Exists_exists in Hbad as [id [Hin Hid]].
  apply In_nth_error in Hin as [n Hn].
  assert (Hlt : n < length ids_p) by (apply nth_error_Some; congruence).
  match goal with
  | |- for_ ?xs ?body ?s0 = _ =>
      assert (He : exists e, for_ xs body s0 = Raise e);
      [ apply for_raises with (x := n) | destruct He as [e He] ]
  end.
  - apply -> in_rev. apply in_seq. lia.
  - intros img. unfold getitem at 1.
    destruct (nth_error box_p n) as [[[[x1 y1] x2] y2]|];
      [|cbn [bind]; eexists; reflexivity].
    cbn [bind]. unfold getitem at 1. rewrite Hn. cbn [bind].
    destruct (getitem_Z COLORS (id + 1)) as [color|];
      [|cbn [bind]; eexists; reflexivity].
    cbn [bind]. rewrite getitem_Z_outside.
    + cbn [bind]. eexists; reflexivity.
    + change (Z.of_nat (length COCO_CLASSES)) with 80%Z. lia.
  - rewrite He. f_equal.
    apply for_raise_inv in He as [i [img [_ Hstep]]].
    unfold getitem in Hstep.
    destruct (nth_error box_p i) as [[[[x1 y1] x2] y2]|];
      cbn [bind] in Hstep; [|congruence].
    destruct (nth_error ids_p i) as [id'|]; cbn [bind] in Hstep; [|congruence].
    destruct (getitem_Z COLORS (id' + 1)) as [color|] eqn:Hc;
      cbn [bind] in Hstep;
      [|apply getitem_Z_raises in Hc; congruence].
    destruct (getitem_Z COCO_CLASSES id') as [name|] eqn:Hname;
      cbn [bind] in Hstep;
      [|apply getitem_Z_raises in Hname; congruence].
    destruct (nth_error class_p i) as [score|]; cbn [bind] in Hstep;
      [|congruence].
    destruct (getTextSize _ _ _). discriminate Hstep.
Qed.

End RknnRendering.

(** ** The colour table: stability and range *)

Section ColorTableFacts.

Variable rng : Type.
Variable np_random_seed : Z -> rng.
Variable np_random_randint : Z -> Z -> nat -> rng -> list Z * rng.

Let draw (acc : list Color * rng) (_ : nat) : list Color * rng :=
  let '(colors, st) := acc in
  let '(color, st) := np_random_randint 0%Z 256%Z 3 st in
  (colors ++ [map uint8 color], st).

Lemma draw_appends (colors : list Color) (st : rng) (d : nat) :
  exists color st', draw (colors, st) d = (colors ++ [color], st').
Proof.
  unfold draw. destruct (np_random_randint 0%Z 256%Z 3 st) as [color st'].
  now exists (map uint8 color), st'.
Qed.

Lemma get_colors_length (num : nat) (st : rng) :
  length (fst (get_colors np_random_seed np_random_randint num st)) = S num.
Proof.
  unfold get_colors. cbv zeta.
  destruct (@appending_fold rng draw draw_appends (range num) [[0; 0; 0]%Z]
              (np_random_seed 0)) as [more [Heq Hlen]].
  etransitivity; [exact (f_equal (@length Color) Heq)|].
  rewrite length_app, Hlen. unfold range. now rewrite length_seq.
Qed.

(** X17. The colour of an entry does not depend on how many colours are asked
    for: the table for [num] colours is the beginning of the table for any
    larger number, whatever state the generator was in at either call. *)
Theorem get_colors_prefix (num more : nat) (st st' : rng) :
  fst (get_colors np_random_seed np_random_randint num st)
  = firstn (S num)
           (fst (get_colors np_random_seed np_random_randint (num + more) st')).
Proof.
  assert (Hsplit :
    get_colors np_random_seed np_random_randint (num + more) st'
    = fold_left draw (seq num more)
                (get_colors np_random_seed np_random_randint num st)).
  { unfold get_colors, range. cbv zeta.
    rewrite seq_app, fold_left_app. reflexivity. }
  rewrite Hsplit.
  destruct (get_colors np_random_seed np_random_randint num st)
    as [colors st0] eqn:Hnum.
  destruct (@appending_fold rng draw draw_appends (seq num more) colors st0)
    as [tail [Heq _]].
  cbn [fst].
  etransitivity;
    [|exact (f_equal (firstn (S num)) (eq_sym Heq))].
  assert (Hlen : length colors = S num).
  { pose proof (get_colors_length num st) as H. rewrite Hnum in H. exact H. }
  rewrite <- Hlen, firstn_app, Nat.sub_diag, firstn_all. cbn [firstn].
  now rewrite app_nil_r.
Qed.

Lemma draw_bytes (ds : list nat) (colors : list Color) (st : rng) :
  Forall (Forall (fun v => (0 <= v < 256)%Z)) colors ->
  Forall (Forall (fun v => (0 <= v < 256)%Z))
         (fst (fold_left draw ds (colors, st))).
Proof.
  revert colors st. induction ds as [|d ds IH]; intros colors st Hc;
    [exact Hc|].
  cbn [fold_left]. unfold draw at 2.
  destruct (np_random_randint 0%Z 256%Z 3 st) as [color st0].
  apply IH. apply Forall_app. split; [exact Hc|].
  constructor; [|constructor].
  apply Forall_forall. intros v Hv. apply in_map_iff in Hv as [z [<- _]].
  unfold uint8. apply Z.mod_pos_bound. lia.
Qed.

(** X18. Every component of every colour of the table is a byte, whatever the
    generator returns. *)
Theorem get_colors_bytes (num : nat) (st : rng) :
  Forall (Forall (fun v => (0 <= v < 256)%Z))
         (fst (get_colors np_random_seed np_random_randint num st)).
Proof.
  unfold get_colors. cbv zeta. apply draw_bytes.
  constructor; [|constructor].
  repeat constructor; lia.
Qed.

End ColorTableFacts.

(** ** Rendering of the ONNX variant: painting the masks *)

Lemma for_app {A S : Type} (body : A -> S -> result S) (xs ys : list A) (s : S) :
  for_ (xs ++ ys) body s = bind (for_ xs body s) (for_ ys body).
Proof.
  revert s. induction xs as [|x xs IH]; intros s; simpl; [reflexivity|].
  destruct (body x s) as [s'|e]; simpl; [apply IH | reflexivity].
Qed.

(** What a collecting loop returned was computed element by element. *)
Lemma for_collect_inv {A B : Type} (g : A -> result B) (xs : list A)
  (s r : list B) :
  for_ xs (fun x acc => c <- g x ;; Ok (acc ++ [c])) s = Ok r ->
  exists cs, r = s ++ cs /\ Forall2 (fun x c => g x = Ok c) xs cs.
Proof.
  revert s. induction xs as [|x xs IH]; intros s Hrun; simpl in Hrun.
  - injection Hrun as <-. exists []. split; [now rewrite app_nil_r | constructor].
  - destruct (g x) as [c|] eqn:Hx; cbn [bind] in Hrun; [|discriminate].
    destruct (IH _ Hrun) as [cs [-> Hcs]].
    exists (c :: cs). split; [now rewrite <- app_assoc | now constructor].
Qed.

Lemma Forall2_nth_error {A B : Type} (R : A -> B -> Prop) (xs : list A)
  (ys : list B) (n : nat) (x : A) :
  Forall2 R xs ys -> nth_error xs n = Some x ->
  exists y, nth_error ys n = Some y /\ R x y.
Proof.
  intros H. revert n. induction H as [|x0 y0 xs ys Hxy _ IH]; intros n Hn.
  - now destruct n.
  - destruct n as [|n]; simpl in *.
    + injection Hn as <-. now exists y0.
    + now apply IH.
Qed.

Lemma pixel_nth_error {A : Type} (d : A) (m : list (list A)) (r c : nat)
  (row : list A) (v : A) :
  nth_error m r = Some row -> nth_error row c = Some v -> pixel d m r c = v.
Proof.
  intros Hr Hc. unfold pixel.
  rewrite (nth_error_nth _ _ [] Hr). now apply nth_error_nth.
Qed.

Lemma pixel_nonzero_inside (m : ByteMask) (r c : nat) :
  pixel 0%Z m r c <> 0%Z ->
  exists row, nth_error m r = Some row /\
              nth_error row c = Some (pixel 0%Z m r c).
Proof.
  unfold pixel. intros Hnz.
  destruct (nth_error m r) as [row|] eqn:Hr.
  - exists row. split; [reflexivity|].
    rewrite (nth_error_nth _ _ [] Hr) in *.
    destruct (nth_error row c) as [v|] eqn:Hc.
    + now rewrite (nth_error_nth _ _ 0%Z Hc).
    + apply nth_error_None in Hc. rewrite nth_overflow in Hnz by lia. congruence.
  - apply nth_error_None in Hr. rewrite (nth_overflow m []) in Hnz by lia.
    destruct c; simpl in Hnz; congruence.
Qed.

(** The colours that [take_colors] returned are those of the tags. *)
Lemma take_colors_pixel (colors : list Color) (mask : ByteMask)
  (color_mask : list (list Color)) (r c : nat) :
  take_colors colors mask = Ok color_mask ->
  pixel 0%Z mask r c <> 0%Z ->
  getitem_Z colors (pixel 0%Z mask r c) = Ok (pixel [] color_mask r c).
Proof.
  unfold take_colors. intros Hrun Hnz.
  apply (for_collect_inv
           (fun row => for_ row
                         (fun tag acc => c <- getitem_Z colors tag ;;
                                         Ok (acc ++ [c])) []))
    in Hrun as [rows [-> Hrows]].
  cbn [app].
  destruct (@pixel_nonzero_inside mask r c Hnz) as [row [Hr Hc]].
  destruct (@Forall2_nth_error _ _ _ _ _ r _ Hrows Hr) as [cs [Hcs Hrow]].
  apply (for_collect_inv (fun tag => getitem_Z colors tag)) in Hrow
    as [cs' [-> Hcs']].
  cbn [app] in Hcs.
  destruct (@Forall2_nth_error _ _ _ _ _ c _ Hcs' Hc) as [col [Hcol ->]].
  f_equal. symmetry. exact (@pixel_nth_error _ [] rows r c _ _ Hcs Hcol).
Qed.

(** One turn of the loop: where the mask is zero the image keeps its
    colour, elsewhere it takes the colour of the tag. *)
Lemma paint_mask_pixel (colors : list Color) (mask : ByteMask)
  (img img' : list (list Color)) (r c : nat) :
  paint_mask colors mask img = Ok img' ->
  map (@length Color) img' = map (@length Color) img /\
  (r < length img -> c < length (nth r img []) ->
   if (pixel 0%Z mask r c =? 0)%Z
   then pixel [] img' r c = pixel [] img r c
   else getitem_Z colors (pixel 0%Z mask r c) = Ok (pixel [] img' r c)).
Proof.
  unfold paint_mask. intros Hrun.
  destruct (take_colors colors mask) as [color_mask|] eqn:Htake;
    cbn [bind] in Hrun; [|discriminate].
  destruct (filled_inside _ _ mask); [|discriminate].
  injection Hrun as <-. split; [apply map_length_mapi_rows|].
  intros Hr Hc.
  assert (Hpix : pixel [] (mapi (fun r row =>
                   mapi (fun c old =>
                           if (pixel 0%Z mask r c =? 0)%Z then old
                           else pixel [] color_mask r c) row) img) r c
                 = if (pixel 0%Z mask r c =? 0)%Z then pixel [] img r c
                   else pixel [] color_mask r c).
  { unfold pixel at 1.
    rewrite (nth_of_nth_error (mapi _ img) r), nth_error_mapi.
    destruct (nth_error img r) as [row|] eqn:Hrow;
      [|apply nth_error_None in Hrow; lia].
    cbn [option_map].
    rewrite (nth_of_nth_error (mapi _ row) c), nth_error_mapi.
    rewrite (nth_error_nth _ _ [] Hrow) in Hc.
    destruct (nth_error row c) as [old|] eqn:Hold;
      [|apply nth_error_None in Hold; lia].
    cbn [option_map].
    now rewrite (@pixel_nth_error _ [] img r c _ _ Hrow Hold). }
  rewrite Hpix.
  destruct (Z.eqb_spec (pixel 0%Z mask r c) 0) as [Hz|Hnz]; [reflexivity|].
  now apply take_colors_pixel.
Qed.

(** X19. The composited mask image is painted in list order, so where masks
    overlap the last one wins: a pixel shows the colour of the tag of the
    last mask that is non-zero there, and keeps its colour if there is
    none. *)
Theorem paint_last_mask_wins (colors : list Color) (masks : list ByteMask)
  (img0 img : list (list Color)) (r c : nat) :
  for_ masks (paint_mask colors) img0 = Ok img ->
  r < length img0 -> c < length (nth r img0 []) ->
  match find (fun m => negb (pixel 0%Z m r c =? 0)%Z) (rev masks) with
  | Some m => getitem_Z colors (pixel 0%Z m r c) = Ok (pixel [] img r c)
  | None => pixel [] img r c = pixel [] img0 r c
  end.
Proof.
  revert img. induction masks as [|m masks IH] using rev_ind; intros img Hrun Hr Hc.
  - injection Hrun as <-. reflexivity.
  - rewrite for_app in Hrun.
    destruct (for_ masks (paint_mask colors) img0) as [img1|] eqn:H1;
      cbn [bind for_] in Hrun; [|discriminate].
    destruct (paint_mask colors m img1) as [img2|] eqn:H2;
      cbn [bind] in Hrun; [|discriminate].
    injection Hrun as <-.
    assert (Hshape : map (@length Color) img1 = map (@length Color) img0).
    { clear - H1. revert img0 img1 H1.
      induction masks as [|m' masks IHm]; intros img0 img1 H1; simpl in H1.
      - now injection H1 as <-.
      - destruct (paint_mask colors m' img0) as [img'|] eqn:Hp;
          cbn [bind] in H1; [|discriminate].
        rewrite (IHm _ _ H1).
        exact (proj1 (@paint_mask_pixel colors m' img0 _ 0 0 Hp)). }
    assert (Hr1 : r < length img1).
    { apply (f_equal (@length nat)) in Hshape.
      rewrite !length_map in Hshape. lia. }
    assert (Hc1 : c < length (nth r img1 [])).
    { apply (f_equal (fun l => nth r l 0)) in Hshape.
      change 0 with (length (@nil Color)) in Hshape.
      rewrite !map_nth in Hshape. simpl in Hshape. lia. }
    destruct (@paint_mask_pixel colors m img1 _ r c H2) as [_ Hpix].
    specialize (Hpix Hr1 Hc1).
    rewrite rev_app_distr. cbn [rev app find].
    destruct (pixel 0%Z m r c =? 0)%Z; cbn [negb].
    + rewrite Hpix. now apply IH.
    + exact Hpix.
Qed.

Lemma paint_last_mask_wins_witness :
  getitem_Z [[0; 0; 0]; [10; 10; 10]; [20; 20; 20]]%Z 2
  = Ok (pixel [] [[[20; 20; 20]; [10; 10; 10]]]%Z 0 0).
Proof.
  exact (@paint_last_mask_wins
           [[0; 0; 0]; [10; 10; 10]; [20; 20; 20]]%Z
           [[[1; 1]]; [[2; 0]]]%Z
           [[[0; 0; 0]; [0; 0; 0]]]%Z
           [[[20; 20; 20]; [10; 10; 10]]]%Z 0 0
           eq_refl ltac:(simpl; lia) ltac:(simpl; lia)).
Defined.

(** ** Rendering of the ONNX variant: the whole call *)

(** A loop that keeps an invariant under which no step raises returns a
    state that satisfies it. *)
Lemma for_total_inv {A S : Type} (P : S -> Prop) (body : A -> S -> result S)
  (xs : list A) :
  (forall x t, In x xs -> P t -> exists r, body x t = Ok r /\ P r) ->
  forall s, P s -> exists r, for_ xs body s = Ok r /\ P r.
Proof.
  induction xs as [|x xs IH]; intros Hstep s Hs; simpl.
  - now exists s.
  - destruct (Hstep x s (or_introl eq_refl) Hs) as [s' [-> Hs']]. simpl.
    apply IH; [|exact Hs']. intros y t Hy. apply Hstep. now right.
Qed.

Lemma shape_of_rows {A B : Type} (a : list (list A)) (b : list (list B)) :
  map (@length A) a = map (@length B) b -> shape a = shape b.
Proof.
  intros H. unfold shape. f_equal.
  - apply (f_equal (@length nat)) in H. now rewrite !length_map in H.
  - destruct a, b; simpl in *; congruence.
Qed.

(** A mask with valid tags that fits the image is painted without error. *)
Lemma paint_mask_returns (colors : list Color) (mask : ByteMask)
  (img : list (list Color)) :
  length mask <= fst (shape img) ->
  Forall (fun row => length row <= snd (shape img) /\
                     Forall (fun v => (- Z.of_nat (length colors) <= v
                                       < Z.of_nat (length colors))%Z) row)
         mask ->
  exists img', paint_mask colors mask img = Ok img' /\ shape img' = shape img.
Proof.
  intros Hrows Hmask. unfold paint_mask.
  assert (Htake : exists cm, take_colors colors mask = Ok cm).
  { unfold take_colors. apply for_total. intros row acc Hrow.
    rewrite Forall_forall in Hmask. destruct (Hmask row Hrow) as [_ Htags].
    rewrite Forall_forall in Htags.
    loop_returns.
    - intros v acc' Hv. destruct (getitem_Z_inside colors (Htags v Hv)) as [c ->].
      cbn [bind]. eexists; reflexivity.
    - eexists; reflexivity. }
  destruct Htake as [cm ->]. cbn [bind].
  assert (Hin : filled_inside (fst (shape img)) (snd (shape img)) mask = true).
  { unfold filled_inside. apply forallb_forall. intros [r row] Hr.
    apply forallb_forall. intros [c v] Hc. cbn [fst snd] in *.
    apply orb_true_iff. right. apply andb_true_iff.
    rewrite !Nat.ltb_lt.
    pose proof (enumerate_index _ _ Hr) as Hr'.
    pose proof (enumerate_index _ _ Hc) as Hc'. cbn [fst] in Hr', Hc'.
    unfold enumerate in Hr. apply in_combine_r in Hr.
    rewrite Forall_forall in Hmask. destruct (Hmask row Hr) as [Hw _]. lia. }
  rewrite Hin. eexists. split; [reflexivity|].
  apply shape_of_rows. apply map_length_mapi_rows.
Qed.

Lemma take_colors_raises (colors : list Color) (mask : ByteMask) (e : exn) :
  take_colors colors mask = Raise e -> e = IndexError.
Proof.
  unfold take_colors. intros Hrun.
  apply for_raise_inv in Hrun as [row [acc [_ Hrow]]].
  destruct (for_ row _ []) as [cs|e'] eqn:Hinner; cbn [bind] in Hrow;
    [discriminate|].
  injection Hrow as <-.
  apply for_raise_inv in Hinner as [v [acc' [_ Hv]]].
  destruct (getitem_Z colors v) as [c|e''] eqn:Hget; cbn [bind] in Hv;
    [discriminate|].
  injection Hv as <-. now apply getitem_Z_raises in Hget.
Qed.

Lemma paint_mask_raises (colors : list Color) (mask : ByteMask)
  (img : list (list Color)) (e : exn) :
  paint_mask colors mask img = Raise e -> e = IndexError.
Proof.
  unfold paint_mask. intros Hrun.
  destruct (take_colors colors mask) as [cm|e'] eqn:Htake; cbn [bind] in Hrun.
  - destruct (filled_inside _ _ mask); congruence.
  - injection Hrun as <-. now apply take_colors_raises in Htake.
Qed.

Lemma paint_mask_bad_tag (colors : list Color) (mask : ByteMask)
  (img : list (list Color)) :
  Exists (Exists (fun v => (v < - Z.of_nat (length colors)
                            \/ Z.of_nat (length colors) <= v)%Z)) mask ->
  paint_mask colors mask img = Raise IndexError.
Proof.
  intros Hbad.
  assert (Htake : exists e, take_colors colors mask = Raise e).
  { apply Exists_exists in Hbad as [row [Hrow Hv]].
    apply Exists_exists in Hv as [v [Hv Hout]].
    unfold take_colors. apply for_raises with (x := row); [exact Hrow|].
    intros acc.
    assert (Hinner : exists e,
              for_ row (fun tag acc => c <- getitem_Z colors tag ;;
                                       Ok (acc ++ [c])) [] = Raise e).
    { apply for_raises with (x := v); [exact Hv|].
      intros acc'. rewrite (getitem_Z_outside colors Hout).
      cbn [bind]. eexists; reflexivity. }
    destruct Hinner as [e ->]. cbn [bind]. eexists; reflexivity. }
  destruct Htake as [e Htake].
  pose proof (take_colors_raises _ _ Htake) as ->.
  unfold paint_mask. now rewrite Htake.
Qed.

Lemma cropped_mask_tags (class_id : Z) (bbox : BBox) (mask : Mask) :
  Forall (Forall (fun v => v = 0%Z \/ v = uint8 (class_id + 1)))
         (cropped_mask class_id bbox mask).
Proof.
  unfold cropped_mask, assign_region.
  apply Forall_mapi
    with (P := Forall (fun v => v = 0%Z \/ v = uint8 (class_id + 1))).
  - intros r row Hrow.
    apply Forall_mapi
      with (P := fun v => v = 0%Z \/ v = uint8 (class_id + 1));
      [|exact Hrow].
    intros c v Hv. destruct (_ && _); [exact Hv | now left].
  - unfold where_tag. apply Forall_forall. intros row Hrow.
    apply in_map_iff in Hrow as [row' [<- _]].
    apply Forall_forall. intros v Hv.
    apply in_map_iff in Hv as [q [<- _]].
    destruct (Qlt_le_dec (1 # 2) q); [now right | now left].
Qed.

Section OnnxRendering.

Variable rng : Type.
Variable np_random_seed : Z -> rng.
Variable np_random_randint : Z -> Z -> nat -> rng -> list Z * rng.
Variable Image : Type.
Variable frame_shape : Image -> nat * nat.
Variable resize : list (list Color) -> nat * nat -> Image.
Variable addWeighted : Image -> Q -> Image -> Q -> Q -> Image.
Variable rectangle : Image -> Z * Z -> Z * Z -> Color -> Z -> Image.
Variable putText : Image -> string -> Z * Z -> Z -> Q -> Color -> Z -> Image.
Variable format_label : string -> Q -> string.

Local Abbreviation draw :=
  (onnx_draw np_random_seed np_random_randint frame_shape resize
             addWeighted rectangle putText format_label).

(** X20. Without masks nothing is drawn, boxes and labels included: the frame
    comes back as it was, whatever the other three sequences hold. *)
Theorem onnx_draw_no_masks (frame : Image) (bboxes : list BBox)
  (scores : list Q) (class_ids : list Z) (st : rng) :
  fst (draw frame bboxes scores class_ids [] st) = Ok frame.
Proof.
  unfold onnx_draw.
  destruct (get_colors _ _ _ st) as [colors st'].
  destruct (frame_shape frame) as [frame_height frame_width].
  cbn [fst length Nat.ltb Nat.leb bind].
  unfold zip. now rewrite combine_nil.
Qed.

Lemma onnx_draw_total (frame : Image) (bboxes : list BBox)
  (scores : list Q) (class_ids : list Z) (masks : list ByteMask) (st : rng) :
  Forall (fun mask =>
            length mask <= 138 /\
            Forall (fun row => length row <= 138 /\
                               Forall (fun v => (-81 <= v <= 80)%Z) row) mask)
         masks ->
  Forall (fun id => (-80 <= id <= 79)%Z) class_ids ->
  exists img, fst (draw frame bboxes scores class_ids masks st) = Ok img.
Proof.
  intros Hmasks Hids. unfold onnx_draw.
  pose proof (get_colors_length np_random_seed np_random_randint
                (length COCO_CLASSES) st) as Hlen.
  destruct (get_colors _ _ _ st) as [colors st'].
  cbn [fst] in Hlen. change (S (length COCO_CLASSES)) with 81 in Hlen.
  destruct (frame_shape frame) as [frame_height frame_width].
  cbn [fst].
  assert (Hfirst : exists frame',
    (if 0 <? length masks
     then
       mask_image <- for_ masks (paint_mask colors) zeros_image ;;
       Ok (addWeighted frame (1 # 2)
             (resize mask_image (frame_width, frame_height)) (1 # 2) 0)
     else Ok frame) = Ok frame').
  { destruct (0 <? length masks); [|eexists; reflexivity].
    destruct (@for_total_inv _ _ (fun img => shape img = (138, 138))
                (paint_mask colors) masks) with (s := zeros_image)
      as [mask_image [-> _]].
    - intros mask img Hin Himg. rewrite Forall_forall in Hmasks.
      destruct (Hmasks mask Hin) as [Hrows Hcols].
      destruct (@paint_mask_returns colors mask img) as [img' [-> Hshape]].
      + rewrite Himg. exact Hrows.
      + rewrite Himg. cbn [snd]. eapply Forall_impl; [|exact Hcols].
        intros row [Hw Htags]. split; [exact Hw|].
        eapply Forall_impl; [|exact Htags]. intros v Hv.
        cbn beta in *. rewrite Hlen. lia.
      + exists img'. split; [reflexivity | congruence].
    - reflexivity.
    - cbn [bind]. eexists; reflexivity. }
  destruct Hfirst as [frame' ->]. cbn [bind].
  apply for_total. intros [[[bbox score] class_id] mask] img Hin.
  unfold zip in Hin.
  apply in_combine_l in Hin. apply in_combine_r in Hin.
  rewrite Forall_forall in Hids.
  destruct (@getitem_Z_inside _ COCO_CLASSES class_id) as [name ->].
  { change (Z.of_nat (length COCO_CLASSES)) with 80%Z.
    pose proof (Hids class_id Hin). lia. }
  cbn [bind]. eexists; reflexivity.
Qed.

(** X21. [onnx_draw] returns a frame whenever every mask fits the 138 x 138
    mask image and holds tags from 0 to 80 only, and every class id lies
    in [-80, 79]. *)
Theorem onnx_draw_returns (frame : Image) (bboxes : list BBox)
  (scores : list Q) (class_ids : list Z) (masks : list ByteMask) (st : rng) :
  Forall (fun mask =>
            length mask <= 138 /\
            Forall (fun row => length row <= 138 /\
                               Forall (fun v => (0 <= v <= 80)%Z) row) mask)
         masks ->
  Forall (fun id => (-80 <= id <= 79)%Z) class_ids ->
  exists img, fst (draw frame bboxes scores class_ids masks st) = Ok img.
Proof.
  intros Hmasks Hids. apply onnx_draw_total; [|exact Hids].
  eapply Forall_impl; [|exact Hmasks].
  intros mask [Hh Hrows]. split; [exact Hh|].
  eapply Forall_impl; [|exact Hrows].
  intros row [Hw Htags]. split; [exact Hw|].
  eapply Forall_impl; [|exact Htags].
  intros v Hv. cbn beta in *. lia.
Qed.

(** X22. A tag above 80 has no colour in the 81-entry table: [onnx_draw]
    raises [IndexError] as soon as one mask holds one. *)
Theorem onnx_draw_bad_tag (frame : Image) (bboxes : list BBox)
  (scores : list Q) (class_ids : list Z) (masks : list ByteMask) (st : rng) :
  Exists (Exists (Exists (fun v => (80 < v)%Z))) masks ->
  fst (draw frame bboxes scores class_ids masks st) = Raise IndexError.
Proof.
  intros Hbad. unfold onnx_draw.
  pose proof (get_colors_length np_random_seed np_random_randint
                (length COCO_CLASSES) st) as Hlen.
  destruct (get_colors _ _ _ st) as [colors st'].
  cbn [fst] in Hlen. change (S (length COCO_CLASSES)) with 81 in Hlen.
  destruct (frame_shape frame) as [frame_height frame_width].
  cbn [fst].
  assert (Hne : (0 <? length masks) = true).
  { destruct masks; [inversion Hbad | reflexivity]. }
  rewrite Hne.
  assert (Hloop : for_ masks (paint_mask colors) zeros_image = Raise IndexError).
  { apply Exists_exists in Hbad as [mask [Hin Hmask]].
    destruct (@for_raises _ _ (paint_mask colors) masks mask Hin)
      with (s := zeros_image) as [e He].
    - intros img. exists IndexError. apply paint_mask_bad_tag.
      eapply Exists_impl; [|exact Hmask]. intros row Hrow.
      eapply Exists_impl; [|exact Hrow]. intros v Hv. cbn beta in *.
      rewrite Hlen. lia.
    - rewrite He. f_equal.
      apply for_raise_inv in He as [m [img [_ Hstep]]].
      now apply paint_mask_raises in Hstep. }
  rewrite Hloop. reflexivity.
Qed.

(** X23. What [prep_display] returns can always be drawn: when the predicted
    masks fit the 138 x 138 mask image and every row carries a class id
    from 0 to 79, [onnx_draw] returns a frame for the four sequences of
    [prep_display]. *)
Theorem prep_display_is_drawable (self : ONNXDetection) (rows : list Row)
  (masks : list Mask) (bboxes : list BBox) (scores : list Q)
  (class_ids : list Z) (out_masks : list ByteMask) (frame : Image) (st : rng) :
  prep_display self rows masks = (bboxes, scores, class_ids, out_masks) ->
  Forall (fun mask => length mask <= 138 /\
                      Forall (fun row => length row <= 138) mask) masks ->
  Forall (fun row => (0 <= py_int (row_class row) <= 79)%Z) rows ->
  exists img, fst (draw frame bboxes scores class_ids out_masks st) = Ok img.
Proof.
  intros Hrun Hfit Hcls. rewrite prep_display_survivors in Hrun.
  unfold display_of in Hrun. rewrite !map_map in Hrun.
  injection Hrun as _ _ <- <-.
  assert (Hsurv : forall rm, In rm (survivors self rows masks) ->
                             In (fst rm) rows /\ In (snd rm) masks).
  { intros [row mask] Hin. unfold survivors, zip in Hin.
    apply filter_In in Hin as [Hin _]. split.
    - now apply in_combine_l in Hin.
    - now apply in_combine_r in Hin. }
  rewrite Forall_forall in Hfit, Hcls.
  apply onnx_draw_total.
  - apply Forall_forall. intros cropped Hc.
    apply in_map_iff in Hc as [rm [<- Hrm]]. cbn [prepared snd].
    destruct (Hsurv rm Hrm) as [Hrow Hmask].
    destruct (Hfit _ Hmask) as [Hh Hw].
    pose proof (cropped_mask_rows (py_int (row_class (fst rm)))
                  (row_bbox (fst rm)) (snd rm)) as Hrows.
    split.
    + apply (f_equal (@length nat)) in Hrows.
      rewrite !length_map in Hrows. lia.
    + apply Forall_forall. intros r Hr. split.
      * assert (Hl : In (length r) (map (@length Q) (snd rm)))
          by (rewrite <- Hrows; now apply in_map).
        apply in_map_iff in Hl as [q [<- Hq]].
        rewrite Forall_forall in Hw. now apply Hw.
      * pose proof (cropped_mask_tags (py_int (row_class (fst rm)))
                      (row_bbox (fst rm)) (snd rm)) as Htags.
        rewrite Forall_forall in Htags.
        eapply Forall_impl; [|exact (Htags r Hr)].
        intros v [-> | ->]; [lia|].
        pose proof (Hcls _ Hrow). unfold uint8.
        rewrite Z.mod_small by lia. lia.
  - apply Forall_forall. intros id Hid.
    apply in_map_iff in Hid as [rm [<- Hrm]]. cbn [prepared fst snd].
    destruct (Hsurv rm Hrm) as [Hrow _]. pose proof (Hcls _ Hrow). lia.
Qed.

End OnnxRendering.

(** ** Tensor reordering of the ONNX variant *)

Lemma nd_first_raises (a : ndarray) (e : exn) :
  nd_first a = Raise e -> e = IndexError.
Proof.
  unfold nd_first. destruct (nd_shape a) as [|[|d] rest]; congruence.
Qed.

Lemma getitem_raises {A : Type} (xs : list A) (i : nat) (e : exn) :
  getitem xs i = Raise e -> e = IndexError /\ length xs <= i.
Proof.
  unfold getitem. destruct (nth_error xs i) eqn:Hi; [discriminate|].
  intros [= <-]. split; [reflexivity | now apply nth_error_None].
Qed.

Lemma first_transposed (n a t : ndarray) :
  nd_first n = Ok a -> transpose_201 a = Ok t -> channels_first n t.
Proof.
  unfold nd_first, transpose_201, channels_first. intros Ha Ht.
  destruct (nd_shape n) as [|[|b] rest] eqn:Hn; try discriminate.
  injection Ha as <-. cbn [nd_shape] in Ht.
  destruct rest as [|d0 [|d1 [|d2 [|]]]]; try discriminate.
  injection Ht as <-. exists b, d0, d1, d2. repeat split.
Qed.

Lemma first_transposed_returns (n : ndarray) (b d0 d1 d2 : nat) :
  nd_shape n = [S b; d0; d1; d2] ->
  exists a t, nd_first n = Ok a /\ transpose_201 a = Ok t.
Proof.
  intros Hn. unfold nd_first, transpose_201. rewrite Hn. cbn [nd_shape].
  eexists. eexists. split; reflexivity.
Qed.

Lemma permute_steps (net_outputs out : list ndarray) :
  ONNXDetection_permute net_outputs = Ok out ->
  exists n0 n1 n2 n3 a0 a1 a3 t0 t1 t3,
    nth_error net_outputs 0 = Some n0 /\
    nth_error net_outputs 1 = Some n1 /\
    nth_error net_outputs 2 = Some n2 /\
    nth_error net_outputs 3 = Some n3 /\
    nd_first n0 = Ok a0 /\ nd_first n2 = Ok a1 /\ nd_first n1 = Ok a3 /\
    transpose_201 a0 = Ok t0 /\ transpose_201 a1 = Ok t1 /\
    transpose_201 a3 = Ok t3 /\
    out = [t0; t1; n3; t3].
Proof.
  unfold ONNXDetection_permute. intros Hrun.
  bind_returns Hrun n0 H0. bind_returns Hrun a0 Ha0.
  bind_returns Hrun n2 H2. bind_returns Hrun a1 Ha1.
  bind_returns Hrun n3 H3.
  bind_returns Hrun n1 H1. bind_returns Hrun a3 Ha3.
  bind_returns Hrun t0 Ht0. bind_returns Hrun t1 Ht1.
  bind_returns Hrun t3 Ht3.
  injection Hrun as <-.
  unfold getitem in H0, H1, H2, H3.
  destruct (nth_error net_outputs 0) as [x0|]; [|discriminate].
  destruct (nth_error net_outputs 1) as [x1|]; [|discriminate].
  destruct (nth_error net_outputs 2) as [x2|]; [|discriminate].
  destruct (nth_error net_outputs 3) as [x3|]; [|discriminate].
  injection H0 as ->. injection H1 as ->. injection H2 as ->. injection H3 as ->.
  exists n0, n1, n2, n3, a0, a1, a3, t0, t1, t3. repeat split; assumption.
Qed.

(** X24. [permute] hands the decode graph, in this order, outputs 0, 2, 3 and 1
    of the network; outputs 0, 2 and 1 lose their batch axis and get their
    last axis moved to the front, so that element [[i, j, k]] of the result
    is element [[0, j, k, i]] of the output, and output 3 is passed on as
    it is. *)
Theorem permute_wiring (net_outputs out : list ndarray) :
  ONNXDetection_permute net_outputs = Ok out ->
  exists n0 n1 n2 n3 t0 t1 t3,
    nth_error net_outputs 0 = Some n0 /\
    nth_error net_outputs 1 = Some n1 /\
    nth_error net_outputs 2 = Some n2 /\
    nth_error net_outputs 3 = Some n3 /\
    out = [t0; t1; n3; t3] /\
    channels_first n0 t0 /\ channels_first n2 t1 /\ channels_first n1 t3.
Proof.
  intros Hrun.
  destruct (permute_steps _ Hrun)
    as (n0 & n1 & n2 & n3 & a0 & a1 & a3 & t0 & t1 & t3 &
        H0 & H1 & H2 & H3 & Ha0 & Ha1 & Ha3 & Ht0 & Ht1 & Ht3 & ->).
  exists n0, n1, n2, n3, t0, t1, t3.
  repeat split; eauto using first_transposed.
Qed.

Lemma permute_wiring_witness :
  exists out t3,
    ONNXDetection_permute
      [sample_output; sample_output; sample_output; sample_output] = Ok out /\
    nth_error out 3 = Some t3 /\
    nd_shape t3 = [3; 2; 2] /\
    nd_item t3 [2; 0; 1] = inject_Z 12.
Proof.
  destruct (ONNXDetection_permute
              [sample_output; sample_output; sample_output; sample_output])
    as [out|] eqn:Hrun; [|discriminate Hrun].
  destruct (permute_wiring _ Hrun)
    as [n0 [n1 [n2 [n3 [t0 [t1 [t3 [_ [H1 [_ [_ [-> [_ [_ Hcf]]]]]]]]]]]]]].
  injection H1 as <-.
  destruct Hcf as [b [d0 [d1 [d2 [Hsrc [Hdst Hitem]]]]]].
  injection Hsrc as <- <- <- <-.
  exists [t0; t1; n3; t3], t3. repeat split; try assumption.
  rewrite Hitem. reflexivity.
Defined.

(** X25. [permute] returns exactly when the network gave at least four outputs
    and the first three are four-dimensional with a non-empty batch axis;
    with fewer than four outputs it raises [IndexError]. *)
Theorem permute_returns_iff (net_outputs : list ndarray) :
  ((exists out, ONNXDetection_permute net_outputs = Ok out) <->
   (4 <= length net_outputs /\
    forall n i, i < 3 -> nth_error net_outputs i = Some n ->
                exists b d0 d1 d2, nd_shape n = [S b; d0; d1; d2])) /\
  (length net_outputs < 4 ->
   ONNXDetection_permute net_outputs = Raise IndexError).
Proof.
  split; [split|].
  - intros [out Hrun].
    destruct (permute_steps _ Hrun)
      as (n0 & n1 & n2 & n3 & a0 & a1 & a3 & t0 & t1 & t3 &
          H0 & H1 & H2 & H3 & Ha0 & Ha1 & Ha3 & Ht0 & Ht1 & Ht3 & _).
    pose proof (first_transposed _ Ha0 Ht0) as C0.
    pose proof (first_transposed _ Ha1 Ht1) as C2.
    pose proof (first_transposed _ Ha3 Ht3) as C1.
    split.
    + assert (3 < length net_outputs) by (apply nth_error_Some; congruence). lia.
    + intros n i Hi Hn.
      destruct i as [|[|[|i]]]; [| | |lia];
        [rewrite H0 in Hn | rewrite H1 in Hn | rewrite H2 in Hn];
        injection Hn as <-;
        [destruct C0 as [b [d0 [d1 [d2 [Hs _]]]]]
        |destruct C1 as [b [d0 [d1 [d2 [Hs _]]]]]
        |destruct C2 as [b [d0 [d1 [d2 [Hs _]]]]]];
        now exists b, d0, d1, d2.
  - intros [Hlen Hshape].
    destruct net_outputs as [|n0 [|n1 [|n2 [|n3 rest]]]]; simpl in Hlen; try lia.
    destruct (Hshape n0 0) as [b0 [x0 [y0 [z0 Hs0]]]]; [lia | reflexivity |].
    destruct (Hshape n1 1) as [b1 [x1 [y1 [z1 Hs1]]]]; [lia | reflexivity |].
    destruct (Hshape n2 2) as [b2 [x2 [y2 [z2 Hs2]]]]; [lia | reflexivity |].
    destruct (first_transposed_returns n0 Hs0) as [a0 [t0 [Ha0 Ht0]]].
    destruct (first_transposed_returns n1 Hs1) as [a1 [t1 [Ha1 Ht1]]].
    destruct (first_transposed_returns n2 Hs2) as [a2 [t2 [Ha2 Ht2]]].
    unfold ONNXDetection_permute. cbn [getitem nth_error bind].
    rewrite Ha0. cbn [bind]. rewrite Ha2. cbn [bind]. rewrite Ha1. cbn [bind].
    rewrite Ht0. cbn [bind]. rewrite Ht2. cbn [bind]. rewrite Ht1. cbn [bind].
    eexists; reflexivity.
  - intros Hlen. unfold ONNXDetection_permute.
    destruct (getitem net_outputs 0) as [n0|e] eqn:H0; cbn [bind];
      [|now destruct (getitem_raises _ _ H0) as [-> _]].
    destruct (nd_first n0) as [a0|e] eqn:Ha0; cbn [bind];
      [|now rewrite (nd_first_raises _ Ha0)].
    destruct (getitem net_outputs 2) as [n2|e] eqn:H2; cbn [bind];
      [|now destruct (getitem_raises _ _ H2) as [-> _]].
    destruct (nd_first n2) as [a1|e] eqn:Ha1; cbn [bind];
      [|now rewrite (nd_first_raises _ Ha1)].
    destruct (getitem net_outputs 3) as [n3|e] eqn:H3; cbn [bind];
      [|now destruct (getitem_raises _ _ H3) as [-> _]].
    unfold getitem in H3.
    destruct (nth_error net_outputs 3) eqn:Hn3; [|discriminate].
    assert (3 < length net_outputs) by (apply nth_error_Some; congruence). lia.
Qed.

Lemma permute_returns_iff_witness :
  ONNXDetection_permute [sample_output; sample_output; sample_output]
  = Raise IndexError.
Proof.
  apply (proj2 (permute_returns_iff
                  [sample_output; sample_output; sample_output])).
  simpl. lia.
Defined.

Lemma rknn_draw_shape_mismatch_witness :
  rknn_draw (fun _ _ (img : unit) _ => img) (fun img _ _ _ _ => img)
            (fun _ _ _ => (0, 0)%Z) (fun img _ _ _ _ _ => img)
            (fun name _ => name) tt (Some [1; 2; 3]%Z) [] [] two_masks
  = Raise ValueError.
Proof.
  apply rknn_draw_shape_mismatch; simpl; lia.
Defined.

Lemma rknn_draw_returns_witness :
  exists img,
    rknn_draw (fun _ _ (img : unit) _ => img) (fun img _ _ _ _ => img)
              (fun _ _ _ => (0, 0)%Z) (fun img _ _ _ _ _ => img)
              (fun name _ => name) tt (Some [2; 4]%Z)
              [9 # 10; 8 # 10]%Q [(0, 0, 1, 1); (1, 0, 2, 1)]%Z two_masks
    = Ok img.
Proof.
  apply rknn_draw_returns; simpl; try lia.
  repeat constructor; lia.
Defined.

Lemma rknn_draw_bad_id_witness :
  rknn_draw (fun _ _ (img : unit) _ => img) (fun img _ _ _ _ => img)
            (fun _ _ _ => (0, 0)%Z) (fun img _ _ _ _ _ => img)
            (fun name _ => name) tt (Some [2; 80]%Z)
            [9 # 10; 8 # 10]%Q [(0, 0, 1, 1); (1, 0, 2, 1)]%Z two_masks
  = Raise IndexError.
Proof.
  apply rknn_draw_bad_id; [reflexivity|].
  apply Exists_cons_tl. apply Exists_cons_hd. lia.
Defined.

Lemma onnx_draw_returns_witness :
  exists img,
    fst (onnx_draw (fun _ => 0) (fun _ _ n st => (repeat 7%Z n, S st))
                   (fun _ : unit => (4, 4)) (fun _ _ => tt)
                   (fun frame _ _ _ _ => frame) (fun frame _ _ _ _ => frame)
                   (fun frame _ _ _ _ _ _ => frame) (fun name _ => name)
                   tt [row_bbox row_a] [9 # 10]%Q [2%Z]
                   [[[0; 3; 3; 0]; [0; 0; 3; 0]]%Z] 5)
    = Ok img.
Proof.
  apply onnx_draw_returns.
  - repeat constructor; simpl; lia.
  - repeat constructor; lia.
Defined.

Lemma onnx_draw_bad_tag_witness :
  fst (onnx_draw (fun _ => 0) (fun _ _ n st => (repeat 7%Z n, S st))
                 (fun _ : unit => (4, 4)) (fun _ _ => tt)
                 (fun frame _ _ _ _ => frame) (fun frame _ _ _ _ => frame)
                 (fun frame _ _ _ _ _ _ => frame) (fun name _ => name)
                 tt [row_bbox row_a] [9 # 10]%Q [80%Z] [[[0; 81]]%Z] 5)
  = Raise IndexError.
Proof.
  apply onnx_draw_bad_tag.
  apply Exists_cons_hd. apply Exists_cons_hd.
  apply Exists_cons_tl. apply Exists_cons_hd. lia.
Defined.

Lemma prep_display_is_drawable_witness :
  exists img,
    fst (onnx_draw (fun _ => 0) (fun _ _ n st => (repeat 7%Z n, S st))
                   (fun _ : unit => (4, 4)) (fun _ _ => tt)
                   (fun frame _ _ _ _ => frame) (fun frame _ _ _ _ => frame)
                   (fun frame _ _ _ _ _ _ => frame) (fun name _ => name)
                   tt [row_bbox row_a] [9 # 10]%Q [2%Z]
                   [[[0; 3; 3; 0]; [0; 0; 3; 0]; [0; 0; 0; 0]; [0; 0; 0; 0]]%Z]
                   5)
    = Ok img.
Proof.
  apply (@prep_display_is_drawable nat (fun _ => 0)
           (fun _ _ n st => (repeat 7%Z n, S st)) unit (fun _ => (4, 4))
           (fun _ _ => tt) (fun frame _ _ _ _ => frame)
           (fun frame _ _ _ _ => frame) (fun frame _ _ _ _ _ _ => frame)
           (fun name _ => name) ONNXDetection_init [row_a] [mask_a]).
  - vm_compute. reflexivity.
  - repeat constructor; simpl; lia.
  - repeat constructor; vm_compute; discriminate.
Defined.
